(** * The advisory pipeline of the Incapsula Terraform provider

    A shallow embedding of [incapsula/provider.go]: the inventory
    collectors, the four advisory tasks, the sequential and the concurrent
    orchestration, and the two report emitters.

    Go code with effects is written in a small trace monad [IO]: a
    computation yields its result (or [None] when [log.Fatalf] has ended the
    process) together with the events it performed, in order.  Everything
    the code obtains from outside the repository (the operating system, the
    Go standard library, the reasoning agent) is a field of [World]. *)

From Stdlib Require Import String Ascii List Floats Permutation Lia.
From stdpp Require Import base option list gmap strings.

#[local] Set Warnings "-register-all".
#[local] Open Scope string_scope.
#[local] Open Scope list_scope.

(** ** Strings *)

(** The line feed and the double quote, which Go string literals write
    with a backslash. *)
Definition nl : string := String (ascii_of_nat 10) EmptyString.
Definition dq : string := String (ascii_of_nat 34) EmptyString.

(** [strings.Join]. *)
Fixpoint strings_Join (elems : list string) (sep : string) : string :=
  match elems with
  | [] => ""
  | [e] => e
  | e :: rest => e +:+ sep +:+ strings_Join rest sep
  end.

(** [strings.HasPrefix]. *)
Fixpoint strings_HasPrefix (s prefix : string) {struct prefix} : bool :=
  match prefix, s with
  | EmptyString, _ => true
  | String _ _, EmptyString => false
  | String p prefix', String c s' =>
      if Ascii.eqb c p then strings_HasPrefix s' prefix' else false
  end.


(** [strings.Contains]. *)
Fixpoint strings_Contains (s substr : string) : bool :=
  strings_HasPrefix s substr
  || match s with
     | EmptyString => false
     | String _ s' => strings_Contains s' substr
     end.

(** [strings.ReplaceAll] for a one-character pattern, which is how
    [escapeBraces] uses it. *)
Fixpoint replaceAllChar (s : string) (old : ascii) (new : string) : string :=
  match s with
  | EmptyString => EmptyString
  | String c s' =>
      (if Ascii.eqb c old then new else String c EmptyString)
        +:+ replaceAllChar s' old new
  end.

(** [fmt.Sprintf] for format strings whose only verbs are [%s] (and the
    literal [%%]) and whose operands are strings: every format string of
    the file is of that kind.  A verb without an operand prints
    [%!s(MISSING)]; operands left over are reported at the end. *)
Definition sprintfExtra (args : list string) : string :=
  match args with
  | [] => ""
  | _ => "%!(EXTRA "
           +:+ strings_Join (map (fun a => "string=" +:+ a) args) ", " +:+ ")"
  end.

Fixpoint fmt_Sprintf (format : string) (args : list string) : string :=
  match format with
  | EmptyString => sprintfExtra args
  | String c rest =>
      if Ascii.eqb c "%" then
        match rest with
        | EmptyString => "%!(NOVERB)" +:+ sprintfExtra args
        | String v rest' =>
            if Ascii.eqb v "s" then
              match args with
              | a :: args' => a +:+ fmt_Sprintf rest' args'
              | [] => "%!s(MISSING)" +:+ fmt_Sprintf rest' []
              end
            else if Ascii.eqb v "%" then String "%" (fmt_Sprintf rest' args)
            else String c (String v (fmt_Sprintf rest' args))
        end
      else String c (fmt_Sprintf rest args)
  end.

(** ** Data *)

(** A Go [error], by its message. *)
Definition error := string.

(** The outcome of a library call that returns [(value, err)]. *)
Inductive Result (A : Type) : Type :=
| Ok (a : A)
| Err (e : error).
Arguments Ok {A} a.
Arguments Err {A} e.

(** [type TfResource struct { Type string; Id string }]; [Type] is a
    keyword here, hence the underscore. *)
Record TfResource := { Type_ : string; Id : string }.

(** What [encoding/json] stores in an [interface{}]. *)
Inductive JValue : Type :=
| JNull
| JBool (b : bool)
| JNumber (f : float)
| JString (s : string)
| JArray (l : list JValue)
| JObject (m : gmap string JValue).

(** The anonymous struct the state file is decoded into. *)
Module StateJSON.
Record Instance := { Attributes : gmap string JValue }.
Record Resource := { Type_ : string; Instances : list Instance }.
Record t := { Resources : list Resource }.
End StateJSON.

(** The three settings of [*schema.ResourceData] the pipeline reads with
    [d.Get]; the provider schema declares each of them a
    string. *)
Record ResourceData := {
  api_id : string;
  api_key : string;
  execution_dir : string }.

(** One call of the [fs.WalkDirFunc] given to [filepath.WalkDir]. *)
Record WalkEntry := {
  walkPath : string;
  walkIsDir : bool;
  walkErr : option error }.

(** [diag.Diagnostic] and its severity. *)
Inductive Severity := SevError | SevWarning.
Record Diagnostic := {
  DSeverity : Severity;
  Summary : string;
  Detail : string }.
Definition Diagnostics := list Diagnostic.

(** ** The world outside the repository *)

Record World := {
  (** [os.Getwd]. *)
  cwdResult : Result string;
  (** [os.Open]: on success, the bytes behind the handle. *)
  openResult : string -> Result string;
  (** [Close] of the handle [os.Open] gave, by path. *)
  closeResult : string -> option error;
  (** [json.NewDecoder(file).Decode(&state)], on the bytes of the file. *)
  decodeResult : string -> Result StateJSON.t;
  (** [filepath.Join] of two elements. *)
  joinPath : string -> string -> string;
  (** [filepath.Glob]; its only error is a malformed pattern. *)
  globResult : string -> Result (list string);
  (** [ioutil.ReadFile] and [ioutil.WriteFile]. *)
  readResult : string -> Result string;
  writeResult : string -> string -> option error;
  (** [filepath.WalkDir]: the calls it makes of a function that stops the
      walk at the first error, up to and including that error. *)
  walkCalls : string -> list WalkEntry;
  (** The reasoning agent, [queryAgent] and [answerWithTools]; both
      return [(text, err)]. *)
  agentReply : string -> string * option error;
  toolAgentReply : string -> string -> string -> string * option error }.

(** ** Effects *)

(** An operand of [log.Printf]. *)
Inductive LogArg :=
| AStr (s : string)
| AErr (e : error)
| AAttrs (m : gmap string JValue).

Inductive Event :=
| EvLogPrintf (format : string) (args : list LogArg)
| EvLogFatalf (format : string) (args : list LogArg)
| EvPrint (s : string)
| EvOpen (path : string)
| EvGlob (pattern : string)
| EvReadFile (path : string)
| EvWalkDir (root : string)
| EvWriteFile (path content : string)
| EvQueryAgent (question : string)
| EvAnswerWithTools (question apiId apiKey : string).

(** A computation: its result, [None] once the process has exited, and the
    events it performed. *)
Definition IO (A : Type) : Type := option A * list Event.

Definition ret {A} (a : A) : IO A := (Some a, []).

Definition bind {A B} (m : IO A) (k : A -> IO B) : IO B :=
  match m with
  | (Some a, tr) => let (r, tr') := k a in (r, tr ++ tr')
  | (None, tr) => (None, tr)
  end.

Notation "x <- m ;; k" := (bind m (fun x => k))
  (at level 100, m at next level, right associativity).
Notation "m ;;; k" := (bind m (fun _ => k))
  (at level 100, right associativity).

Definition emit (e : Event) : IO unit := (Some tt, [e]).

Definition log_Printf (format : string) (args : list LogArg) : IO unit :=
  emit (EvLogPrintf format args).

(** [log.Fatalf] writes the message and calls [os.Exit(1)]. *)
Definition log_Fatalf {A} (format : string) (args : list LogArg) : IO A :=
  (None, [EvLogFatalf format args]).

Definition print (s : string) : IO unit := emit (EvPrint s).

(** [for _, x := range l { body }] for a body that only performs effects. *)
Fixpoint forRange {A} (l : list A) (body : A -> IO unit) : IO unit :=
  match l with
  | [] => ret tt
  | x :: l' => body x ;;; forRange l' body
  end.

Definition result {A} (m : IO A) : option A := fst m.
Definition trace {A} (m : IO A) : list Event := snd m.

(** ** The texts sent to the agent *)

(** The format string of [getHtmlContent]. *)
Definition htmlContentFormat : string :=
  "
You are a system that takes a final answer to the user question and turns that answer into a single, well-structured, visually organized HTML file.

Overall behavior

Transform that explanation into a self-contained HTML document that:

Uses semantic structure (sections, headings, lists).

Uses a simple but attractive layout (cards, columns, timelines, etc.).

Includes inline CSS so it can be saved directly as index.html and opened in a browser.

Output only the final HTML. Do not include any explanations, comments, or markdown.

Content requirements

Identify:

Main idea / overview

3–7 key points or components

Any process, timeline, or hierarchy that can be visualized

Summarize in clear, concise text (no huge paragraphs).

All code snippets MUST be included in the recomendations.

include BOTH original snippets and improved snippets. (if exists)

HTML requirements:

Produce a complete HTML5 document:

Use this structure (adapt as needed):

<html>, <head>, <body> with:

<meta charset="
  +:+ dq +:+ "UTF-8"
  +:+ dq +:+ ">

<title>: short title derived from the topic

<style>: all CSS inline in the head (no external files)

In <body>:

A top header with:

Main title

Short subtitle/description

A main content container with:

Overview section

Cards or columns for key points

At least one “graphic” layout:

E.g. a timeline, process flow, comparison table, or step boxes

These can be built using HTML + CSS (no JS required).

Visual style guidelines:

Use a clean, modern layout with:

A max-width centered container

Some padding and spacing between sections

Rounded corners and subtle box shadows for cards

Use CSS Flexbox or CSS Grid for multi-column layouts where helpful.

Use readable fonts (e.g. system fonts via font-family: system-ui, -apple-system, BlinkMacSystemFont, "
  +:+ dq +:+ "Segoe UI"
  +:+ dq +:+ ", sans-serif;).

Use a light background and slightly darker cards, with clear contrast between headings and body text.

Use consistent heading sizes (e.g., h1 main title, h2 section titles, h3 card titles).

Use icons or emojis where helpful (e.g. ✅, ⚙️, 📌, ⏱️) but not excessively.

Accessibility:

Ensure good color contrast.

Structure headings in order (h1, then h2, etc.).

Use lists (<ul>, <ol>) instead of manually formatted bullets.

No JavaScript is required unless it’s absolutely necessary for layout; prefer pure HTML + CSS.

Output format

Return only the finished HTML document.

Do not wrap it in code fences.

Do not add any explanation or commentary.

User request to base the HTML on: %s".

(** The format string of [getImpervaNewFeaturesSuggestions]. *)
Definition newFeaturesFormat : string :=
  "You are an infrastructure-as-code assistant that helps upgrade a customer's Terraform configuration to use new features of a specific Terraform provider.

You will receive three kinds of inputs:
1) A list of NEW FEATURES for the provider (high level description, changelog, release notes, etc.).
2) The PROVIDER DOCUMENTATION (resources, data sources, arguments, example configs).
3) The CUSTOMER TERRAFORM FILE(S) (current .tf configuration).

Your goals:
- Understand what each new feature does and which provider resources / data sources / arguments are related to it.
- Inspect the customer’s existing Terraform configuration.
- Identify which new features are NOT yet used in the customer’s config.
- Propose concrete Terraform changes (new resources, data sources, arguments, or blocks) that would enable those missing features.

====================
WORKFLOW
====================

1. Parse the new features
- For each new feature:
  - Give it a short identifier (e.g., "
  +:+ dq +:+ "Feature 1 – Enhanced logging"
  +:+ dq +:+ ").
  - Summarize what it does in 1–2 sentences.
  - Map it to specific provider documentation elements:
    - Resource types
    - Data sources
    - Arguments / nested blocks
    - Any version constraints

2. Map features to provider documentation
- For each feature:
  - Find the most relevant resource(s) and/or data source(s).
  - Note the required and important optional arguments.
  - Capture any limitations or prerequisites from the docs.
- Do not invent arguments or resources that are not present in the docs.
  - If something is unclear or ambiguous, explicitly say so.

3. Analyze the customer Terraform files
- Build a mental model of the configuration:
  - Which provider is used and what version constraints exist.
  - Which resources and data sources are already present.
  - Common naming patterns, tags, variable naming, modules, and conventions.
- For each new feature:
  - Check if it is already used in any resource, data source, or argument.
  - If it is used, briefly note where and how.
  - If it is NOT used, mark the feature as "
  +:+ dq +:+ "missing"
  +:+ dq +:+ ".

4. Suggest additions/changes for missing features
For every feature marked as “missing”:
- Propose one or more Terraform changes that would enable the feature:
  - New resource blocks, data sources, or nested blocks.
  - New arguments on existing resources (if clearly safe and backwards-compatible).
- Follow these rules:
  - Preserve the customer’s style:
    - Naming conventions for resources and variables.
    - Tagging conventions.
    - Module structure and layout.
  - Minimize disruptions:
    - Prefer adding new blocks or arguments over refactoring everything.
    - Avoid destructive or breaking changes unless clearly required and explicitly flagged as such.
  - Be explicit about any assumptions you make about the environment.

5. Validate and annotate your suggestions
- For each suggested change:
  - Reference the relevant section(s) of the provider docs (resource name, argument names, behavior).
  - Explain briefly how this change activates the new feature.
  - Note any potential side effects, risks, or prerequisites (e.g., "
  +:+ dq +:+ "requires provider version >= X.Y"
  +:+ dq +:+ ").

====================
OUTPUT FORMAT
====================

Respond using this structure:

1) Feature Coverage Summary
   - For each feature:
     - Feature ID:
     - Used in current config?: (Yes/No/Partial)
     - Short reasoning (1–2 sentences).

2) Proposed Terraform Changes
   For each feature with "
  +:+ dq +:+ "No"
  +:+ dq +:+ " or "
  +:+ dq +:+ "Partial"
  +:+ dq +:+ " usage:
   - Feature ID:
   - Rationale:
   - Suggested change type: (New resource / New data source / New arguments / Other)
   - Terraform snippet:
     "
  +:+ dq +:+ "hcl
	# Your suggested HCL code here
	"
  +:+ dq +:+ "
   - Notes:
     - Relevant provider resources/data sources/arguments:
     - Version requirements:
     - Risks or side effects:
     - Assumptions:

3) Optional Refactoring / Improvements (if applicable)
   - Only include if there are clearly beneficial and low-risk refactors.
   - List them as bullet points, each with:
     - What to change.
     - Why it’s beneficial.
     - Whether it is backwards-compatible.

====================
STYLE & CONSTRAINTS
====================

- Use valid HCL syntax in all snippets.
- Do NOT invent undocumented arguments, blocks, or resources.
- If you are unsure about something due to ambiguous docs or missing context, clearly say "
  +:+ dq +:+ "UNCERTAIN"
  +:+ dq +:+ " and explain why.
- Keep explanations concise but clear.
- Do not change or remove existing resources unless it is clearly necessary for the new feature; if you propose such a change, highlight it as potentially breaking.

The Imperva provider docs are: %s

The new features are: %s

The current Terraform code is as follows: %s

".

(** The format string of [getImpervaResourceReplaceSuggestions]. *)
Definition replaceSuggestionsFormat : string :=
  "
You are an expert Terraform engineer specializing in provider-level correctness.
Your task is to analyze Terraform files I provide and compare them against the current official provider documentation.

When I give you Terraform files, follow all instructions below:

What You Must Do
1. Identify Issues
2. Provide Exact Replacement Snippets

Focus on the following areas, arranged by priority:

Deprecated resources

Deprecated arguments or attributes

Removed or breaking-change arguments

Misconfigurations that differ from current provider requirements

Arguments that should be nested or relocated (based on provider updates)

Required attributes that are missing

Any incorrect or outdated configuration patterns

For each issue identified, provide:  
- A clear description of the problem.  
- The original Terraform snippet.  
- An improved Terraform snippet (ready to paste).  
- A brief explanation of why the improvement is necessary and how it aligns with best practices.

Important Instructions:
- Keep context and variable names unless renaming is part of the improvement, and don't suggest names that already exists'
- Combine multiple improvements into one clean replacement snippet.
- Ensure the replacement is syntactically correct.
- Never output partial fragments—always provide complete blocks.

3. Output Format (Must Follow Exactly)

For every issue:

Issue <number> — <short title>

Original snippet:

<original>

Improved snippet:

<improved>

Explanation:
<clear explanation>

After analyzing all issues:

Summary of Improvements

- Bullet points summarizing key changes.

Important Rules

- Do not invent architecture not implied by the code.
- Only modify what is necessary.
- Keep improvements realistic and aligned with actual Terraform usage.
- If something looks dangerous or costly, call it out clearly.
- If the provided Terraform is already optimal, say so and explain why.

The current Terraform resources are as follows: %s".

(** The format string of [getGeneralTFBestPractices]. *)
Definition bestPracticesFormat : string :=
  "You are an expert Terraform engineer and cloud architect.
Your task is to analyze the Terraform code I provide and suggest improvements strictly following Terraform best practices specified in the following link: https://www.terraform-best-practices.com/

When I give you Terraform files, follow all instructions below:

What You Must Do
1. Identify Issues
2. Provide Exact Replacement Snippets

Focus on the following areas, arranged by priority:

	1. **Security Best Practices**  
	   - Ensure secrets values like passwords are not hard-coded
	   - Verify IAM policies follow the principle of least privilege, avoiding overly permissive roles.  
	   - Check for proper encryption of sensitive data both in transit and at rest.  
	
	2. **Provider and Resource Configuration**  
	   - Identify deprecated arguments, or attributes and suggest replacements based on the latest provider documentation.  
	   - Ensure provider configurations are correct and up-to-date, including version pinning to avoid unexpected behavior.  
	
	3. **Code Modularity and Reusability**  
	   - Evaluate the use of modules to ensure proper structure and reusability of Terraform code.  
	   - Identify opportunities to refactor repetitive code into reusable modules.  
	
	4. **Variable and Input Validation**  
	   - Replace hard-coded values with variables to improve flexibility and maintainability.  
	   - Ensure variables have proper types, validation rules, and default values where applicable.  
	
	5. **Resource Naming and Tagging**  
	   - Check for consistent and meaningful resource naming conventions and not the resource parameters.
	   - Ensure resources are tagged with metadata (e.g., environment, owner, purpose) to improve management and cost tracking.  
	
	6. **Cost Optimization and Efficiency**  
	   - Identify inefficient or costly configurations and suggest improvements to reduce resource usage and expenses.  
	
	7. **General Best Practices**  
	   - Ensure the code adheres to Terraform and cloud provider best practices, avoiding anti-patterns or risky configurations.  
	   - Verify that all required attributes are present and correctly configured.  

For each issue identified, provide:  
- A clear description of the problem.  
- The original Terraform snippet.  
- An improved Terraform snippet (ready to paste).  
- A brief explanation of why the improvement is necessary and how it aligns with best practices.

Important Instructions:
- Keep context and variable names unless renaming is part of the improvement, and don't suggest names that already exists'
- Combine multiple improvements into one clean replacement snippet.
- Ensure the replacement is syntactically correct.
- Never output partial fragments—always provide complete blocks.

3. Output Format (Must Follow Exactly)

For every issue:

Issue <number> — <short title>

Original snippet:

<original>

Improved snippet:

<improved>

Explanation:
<clear explanation>

After analyzing all issues:

Summary of Improvements

- Bullet points summarizing key changes.

Important Rules

- Do not invent architecture not implied by the code.
- Only modify what is necessary.
- Keep improvements realistic and aligned with actual Terraform usage.
- If something looks dangerous or costly, call it out clearly.
- If the provided Terraform is already optimal, say so and explain why.

The current Terraform resources are as follows: %s".

(** The raw string literal of [getAiAnswer]. *)
Definition aiAnswerBanner : string :=
  "
      [Robot AI Assistant]
        _____
       | . . |
       |  ^  |
       | '-' |
       +-----+
      /|     |\
     /_|_____|_\
       /  |  \
      (   |   )
       \_/ \_/
 you can find MY recomendations in the following link: ".

(** The instructions of [getMissingResources], up to the inventory. *)
Definition missingResourcesInstructions : string :=
  "Your task is to gather the full list of sites using the available MCP tool and compare it against the configuration provided in the user message."
  +:+ " Fetch all sites using the tool with a page size of 100."
  +:+ " After retrieving the remote sites, compare them to the sites defined in the provided configuration. "
  +:+ " Produce a JSON array containing only the differences between the two sets. "
  +:+ " Your output must contain only the following two sections, with no additional words, explanations, or text:" +:+ nl
  +:+ " add these resources to your configuration:" +:+ nl +:+ "resource " +:+ dq +:+ "incapsula_site_v3" +:+ dq +:+ " " +:+ dq +:+ "<site_name>" +:+ dq +:+ " {{ name = " +:+ dq +:+ "<site_name>" +:+ dq +:+ " }}"
  +:+ " run this import commands " +:+ nl +:+ "terraform import incapsula_site_v3.<site_name> <resource_id>"
  +:+ " Output only these blocks with no additional words, explanations, or text."
  +:+ " Only include sites that exist in one source but not the other."
  +:+ " If a tool call is required to obtain the data, call it."
  +:+ " this is the provided configuration: ".

(** [fmt.Sprintf("%v", resources)] for a [[]TfResource]: the elements
    between square brackets, separated by a space, each a struct printed
    as its two fields between braces. *)
Definition fmtTfResource (r : TfResource) : string :=
  "{" +:+ Type_ r +:+ " " +:+ Id r +:+ "}".

Definition fmtTfResources (resources : list TfResource) : string :=
  "[" +:+ strings_Join (map fmtTfResource resources) " " +:+ "]".

(** ** The pipeline *)

Section Pipeline.

Variable w : World.

(** *** Library calls, with the events they leave *)

Definition os_Getwd : IO (Result string) := ret (cwdResult w).

Definition os_Open (name : string) : IO (Result string) :=
  emit (EvOpen name) ;;; ret (openResult w name).

Definition filepath_Join (a b : string) : string := joinPath w a b.

Definition filepath_Glob (pattern : string) : IO (Result (list string)) :=
  emit (EvGlob pattern) ;;; ret (globResult w pattern).

Definition ioutil_ReadFile (name : string) : IO (Result string) :=
  emit (EvReadFile name) ;;; ret (readResult w name).

Definition ioutil_WriteFile (name data : string) : IO (option error) :=
  emit (EvWriteFile name data) ;;; ret (writeResult w name data).

Definition filepath_WalkDir (root : string) : IO (list WalkEntry) :=
  emit (EvWalkDir root) ;;; ret (walkCalls w root).

Definition queryAgent (question : string) : IO (string * option error) :=
  emit (EvQueryAgent question) ;;; ret (agentReply w question).

Definition answerWithTools (question apiId apiKey : string)
  : IO (string * option error) :=
  emit (EvAnswerWithTools question apiId apiKey) ;;;
  ret (toolAgentReply w question apiId apiKey).

(** The deferred [file.Close()] of the two state readers. *)
Definition deferredClose (statePath : string) : IO unit :=
  match closeResult w statePath with
  | Some e => log_Printf "[Error] Unable to close state file: %v" [AErr e]
  | None => ret tt
  end.

(** *** Inventory collector *)

(** The body of the inner loop of [getAllResourcesTypeAndId]. *)
Definition appendTypeAndId (type : string) (resources : list TfResource)
    (instance : StateJSON.Instance) : list TfResource :=
  match StateJSON.Attributes instance !! "id" with
  | Some id =>
      match id with
      | JString idStr => resources ++ [{| Type_ := type; Id := idStr |}]
      | _ => resources
      end
  | None => resources
  end.

(** Its two nested loops. *)
Definition typeAndIdLoop (state : StateJSON.t) : list TfResource :=
  fold_left
    (fun resources resource =>
       fold_left (appendTypeAndId (StateJSON.Type_ resource))
                 (StateJSON.Instances resource) resources)
    (StateJSON.Resources state) [].

Definition getAllResourcesTypeAndId (statePath : string)
  : IO (list TfResource) :=
  file <- os_Open statePath ;;
  match file with
  | Err e =>
      log_Printf "[Error] Unable to open state file: %v" [AErr e] ;;;
      ret []
  | Ok file =>
      resources <-
        match decodeResult w file with
        | Err e =>
            log_Printf "[Error] Unable to decode state file: %v" [AErr e] ;;;
            ret []
        | Ok state => ret (typeAndIdLoop state)
        end ;;
      deferredClose statePath ;;;
      ret resources
  end.

Definition attributesLoop (state : StateJSON.t)
  : list (gmap string JValue) :=
  fold_left
    (fun resources resource =>
       fold_left
         (fun resources instance =>
            resources ++ [StateJSON.Attributes instance])
         (StateJSON.Instances resource) resources)
    (StateJSON.Resources state) [].

Definition getAllResourcesFromState (statePath : string)
  : IO (list (gmap string JValue)) :=
  file <- os_Open statePath ;;
  match file with
  | Err e =>
      log_Printf "[Error] Unable to open state file: %v" [AErr e] ;;;
      ret []
  | Ok file =>
      resources <-
        match decodeResult w file with
        | Err e =>
            log_Printf "[Error] Unable to decode state file: %v" [AErr e] ;;;
            ret []
        | Ok state => ret (attributesLoop state)
        end ;;
      deferredClose statePath ;;;
      ret resources
  end.

(** The loop of [getAllResourcesFromTfFiles]. *)
Fixpoint readTfFiles (files : list string) (content : string) : IO string :=
  match files with
  | [] => ret content
  | file :: files' =>
      src <- ioutil_ReadFile file ;;
      match src with
      | Err _ => readTfFiles files' content
      | Ok src => readTfFiles files' (content +:+ (src +:+ nl))
      end
  end.

Definition getAllResourcesFromTfFiles (dir : string)
  : IO (string * option error) :=
  files <- filepath_Glob (filepath_Join dir "*.tf") ;;
  match files with
  | Err e => ret ("", Some e)
  | Ok files =>
      content <- readTfFiles files "" ;;
      ret (content, None)
  end.

(** The function [readAndConcatWebsiteFiles] gives to [WalkDir], over
    the calls [WalkDir] makes of it. *)
Fixpoint walkWebsiteFiles (calls : list WalkEntry) (builder : string)
  : IO (string * option error) :=
  match calls with
  | [] => ret (builder, None)
  | c :: calls' =>
      match walkErr c with
      | Some e => ret ("", Some e)
      | None =>
          if walkIsDir c then walkWebsiteFiles calls' builder
          else
            content <- ioutil_ReadFile (walkPath c) ;;
            match content with
            | Err e => ret ("", Some e)
            | Ok content => walkWebsiteFiles calls' (builder +:+ content)
            end
      end
  end.

Definition readAndConcatWebsiteFiles (root : string)
  : IO (string * option error) :=
  calls <- filepath_WalkDir root ;;
  walkWebsiteFiles calls "".

(** *** The four tasks *)

Definition getMissingResources (d : ResourceData)
    (resources : list TfResource) : IO string :=
  let question := missingResourcesInstructions +:+ fmtTfResources resources in
  sitesAnswer <- answerWithTools question (api_id d) (api_key d) ;;
  ret (fst sitesAnswer).

Definition getGeneralTFBestPractices (resources : string) : IO string :=
  let question := fmt_Sprintf bestPracticesFormat [resources] in
  answer <- queryAgent question ;;
  ret (fst answer).

Definition getImpervaResourceReplaceSuggestions (d : ResourceData)
    (resources docs : string) : IO string :=
  let question := fmt_Sprintf replaceSuggestionsFormat [resources] in
  answer <- queryAgent question ;;
  ret (fst answer).

Definition getNewFeatures : string := "site level managed certificate".

Definition getImpervaNewFeaturesSuggestions (d : ResourceData)
    (resources docs : string) : IO string :=
  let newFeatures := getNewFeatures in
  let question :=
    fmt_Sprintf newFeaturesFormat [docs; newFeatures; resources] in
  answer <- queryAgent question ;;
  ret (fst answer).

(** *** Sequential orchestration *)

Definition runDiagnostics (d : ResourceData) (resources : list TfResource)
    (docs allResourcesFromFiles : string) : IO string :=
  let answer := "" in
  a <- getMissingResources d resources ;;
  let answer := (answer +:+ nl) +:+ a in
  a <- getGeneralTFBestPractices allResourcesFromFiles ;;
  let answer := (answer +:+ nl) +:+ a in
  a <- getImpervaNewFeaturesSuggestions d allResourcesFromFiles docs ;;
  let answer := (answer +:+ nl) +:+ a in
  ret answer.

(** *** Report emitters *)

Definition createResponse (d : ResourceData) (answer : string)
  : IO Diagnostics :=
  let diags : Diagnostics := [] in
  let diags := diags ++ [{| DSeverity := SevWarning;
                            Summary := "Best Practice Suggestion";
                            Detail := answer |}] in
  print answer ;;;
  ret diags.

Definition escapeBraces (answer : string) : string :=
  let answer := replaceAllChar answer "{" "{{" in
  let answer := replaceAllChar answer "}" "}}" in
  answer.

Definition getHtmlContent (d : ResourceData) (finalAnswer : string)
  : IO string :=
  let question := fmt_Sprintf htmlContentFormat [finalAnswer] in
  answer <- queryAgent question ;;
  ret (fst answer).

Definition saveHtmlToFile (d : ResourceData) (content : string)
  : IO string :=
  let executionDir := execution_dir d in
  executionDir <-
    (if String.eqb executionDir "" then
       cwd <- os_Getwd ;;
       ret (match cwd with Ok cwd => cwd | Err _ => "" end)
     else ret executionDir) ;;
  let filePath := filepath_Join executionDir "llm_suggestion.html" in
  err <- ioutil_WriteFile filePath content ;;
  match err with
  | Some e =>
      log_Printf "Failed to write HTML file: %v" [AErr e] ;;;
      ret "Failed to save HTML file"
  | None =>
      let fileURL := "file://" +:+ filePath in
      ret fileURL
  end.

Definition getAiAnswer (answer : string) : string :=
  aiAnswerBanner +:+ answer.

Definition createHtmlReport (d : ResourceData) (finalAnswer : string)
  : IO Diagnostics :=
  let diags : Diagnostics := [] in
  let answer := escapeBraces finalAnswer in
  htmlFile <- getHtmlContent d answer ;;
  link <- saveHtmlToFile d htmlFile ;;
  let answerWithImage := getAiAnswer link in
  let diags := diags ++ [{| DSeverity := SevWarning;
                            Summary := "Best Practice Suggestion";
                            Detail := answerWithImage |}] in
  print htmlFile ;;;
  ret diags.

(** *** The advisory cycle *)

Definition getLLMSuggestions (d : ResourceData) : IO Diagnostics :=
  cwd <- os_Getwd ;;
  cwd <- match cwd with
         | Err e =>
             log_Fatalf "Failed to get current working directory: %v"
                        [AErr e]
         | Ok cwd => ret cwd
         end ;;
  log_Printf cwd [] ;;;
  let dir := execution_dir d in
  allResourcesFromState <-
    getAllResourcesFromState (dir +:+ "terraform.tfstate") ;;
  forRange allResourcesFromState
    (fun res => log_Printf ("Resource: %s" +:+ nl) [AAttrs res]) ;;;
  resources <- getAllResourcesTypeAndId (dir +:+ "terraform.tfstate") ;;
  forRange resources
    (fun res => log_Printf ("Resource Type: %s, ID: %s" +:+ nl)
                           [AStr (Type_ res); AStr (Id res)]) ;;;
  fromFiles <- getAllResourcesFromTfFiles dir ;;
  let allResourcesFromFiles := fst fromFiles in
  log_Printf ("Resource from file: %s" +:+ nl) [AStr allResourcesFromFiles] ;;;
  website <- readAndConcatWebsiteFiles "website" ;;
  let docs := fst website in
  rowAnswer <- runDiagnostics d resources docs allResourcesFromFiles ;;
  createResponse d rowAnswer.

End Pipeline.

(** ** The other copy of the file *)

(** The repository holds a second copy of [provider.go], whose
    [getMissingResources] sends a shorter request. *)
Module OtherCopy.

Definition missingResourcesQuestion : string :=
  "Fetch all the sites from the backend, use pagination 50, or fetch all pages. then output all the sites in the following json format: "
  +:+ "[{{ " +:+ dq +:+ "resource_type" +:+ dq +:+ ": " +:+ dq +:+ "<resource_type>" +:+ dq
  +:+ ", " +:+ dq +:+ "resource_id" +:+ dq +:+ ": " +:+ dq +:+ "<resource_id>" +:+ dq
  +:+ ", " +:+ dq +:+ "site name" +:+ dq +:+ ": " +:+ dq +:+ "<site_name>" +:+ dq +:+ " }}]".

Definition getMissingResources (w : World) (d : ResourceData)
    (resources : list TfResource) : IO string :=
  let question := missingResourcesQuestion in
  answer <- answerWithTools w question (api_id d) (api_key d) ;;
  ret (fst answer).

End OtherCopy.

(** ** Concurrent orchestration *)

(** The four goroutines of [runDiagnosticsParallel], in the order the
    function starts them. *)
Inductive Goroutine :=
| GoMissingResources
| GoGeneralTFBestPractices
| GoResourceReplaceSuggestions
| GoNewFeaturesSuggestions.

Definition goroutines : list Goroutine :=
  [GoMissingResources; GoGeneralTFBestPractices;
   GoResourceReplaceSuggestions; GoNewFeaturesSuggestions].

(** The state of a call of the function: the goroutines whose call has
    not yet returned, the values that goroutines hold and have not yet
    sent, the buffered channel [results], and the events so far. *)
Record ParState := {
  calling : list Goroutine;
  holding : list string;
  results : list string;
  events : list Event }.

Section Parallel.

Variable w : World.
Variable d : ResourceData.
Variable resources : list TfResource.
Variables docs allResourcesFromFiles : string.

(** The call whose value a goroutine sends. *)
Definition goroutineCall (g : Goroutine) : IO string :=
  match g with
  | GoMissingResources => getMissingResources w d resources
  | GoGeneralTFBestPractices =>
      getGeneralTFBestPractices w allResourcesFromFiles
  | GoResourceReplaceSuggestions =>
      getImpervaResourceReplaceSuggestions w d allResourcesFromFiles docs
  | GoNewFeaturesSuggestions =>
      getImpervaNewFeaturesSuggestions w d allResourcesFromFiles docs
  end.

(** After [wg.Add(4)] and the four [go] statements. *)
Definition parStart : ParState :=
  {| calling := goroutines; holding := []; results := []; events := [] |}.

(** The goroutines run [results <- call()] side by side.  Any goroutine
    whose call is under way may be the next to see it return; any
    goroutine that holds a value may be the next to send it, and the send
    never waits, the channel having room for all four values.  After its
    send a goroutine runs the deferred [wg.Done()]. *)
Inductive parStep : ParState -> ParState -> Prop :=
| ParCall before g after held ch ev text tr :
    goroutineCall g = (Some text, tr) ->
    parStep {| calling := before ++ g :: after; holding := held;
               results := ch; events := ev |}
            {| calling := before ++ after; holding := held ++ [text];
               results := ch; events := ev ++ tr |}
| ParSend rest before text after ch ev :
    parStep {| calling := rest; holding := before ++ text :: after;
               results := ch; events := ev |}
            {| calling := rest; holding := before ++ after;
               results := ch ++ [text]; events := ev |}.

(** [for r := range results { answers = append(answers, r) }], on the
    closed channel. *)
Definition drain (ch : list string) : list string :=
  fold_left (fun answers r => answers ++ [r]) ch [].

(** The function returns [s]: [wg.Wait()] passes once every goroutine has
    sent, the channel is closed and drained, the answers joined. *)
Inductive runDiagnosticsParallelReturns : string -> Prop :=
| ParReturn s :
    rtc parStep parStart s ->
    calling s = [] ->
    holding s = [] ->
    runDiagnosticsParallelReturns (strings_Join (drain (results s)) nl).

(** The run in which the goroutines finish one after the other, in the
    order [completion]. *)
Fixpoint sendAll (completion : list Goroutine) (ch : list string)
  : IO (list string) :=
  match completion with
  | [] => ret ch
  | g :: completion' =>
      text <- goroutineCall g ;;
      sendAll completion' (ch ++ [text])
  end.

Definition runDiagnosticsParallel (completion : list Goroutine) : IO string :=
  ch <- sendAll completion [] ;;
  let answers := drain ch in
  ret (strings_Join answers nl).

(** The text a task contributes: what the agent replied, whatever the
    error beside it. *)
Definition taskText (g : Goroutine) : string :=
  match g with
  | GoMissingResources =>
      fst (toolAgentReply w
             (missingResourcesInstructions +:+ fmtTfResources resources)
             (api_id d) (api_key d))
  | GoGeneralTFBestPractices =>
      fst (agentReply w
             (fmt_Sprintf bestPracticesFormat [allResourcesFromFiles]))
  | GoResourceReplaceSuggestions =>
      fst (agentReply w
             (fmt_Sprintf replaceSuggestionsFormat [allResourcesFromFiles]))
  | GoNewFeaturesSuggestions =>
      fst (agentReply w
             (fmt_Sprintf newFeaturesFormat
                [docs; getNewFeatures; allResourcesFromFiles]))
  end.

(** The event a task's agent call leaves. *)
Definition taskCall (g : Goroutine) : Event :=
  match g with
  | GoMissingResources =>
      EvAnswerWithTools
        (missingResourcesInstructions +:+ fmtTfResources resources)
        (api_id d) (api_key d)
  | GoGeneralTFBestPractices =>
      EvQueryAgent (fmt_Sprintf bestPracticesFormat [allResourcesFromFiles])
  | GoResourceReplaceSuggestions =>
      EvQueryAgent
        (fmt_Sprintf replaceSuggestionsFormat [allResourcesFromFiles])
  | GoNewFeaturesSuggestions =>
      EvQueryAgent
        (fmt_Sprintf newFeaturesFormat
           [docs; getNewFeatures; allResourcesFromFiles])
  end.

End Parallel.

(** ** Reading traces *)

Definition isAgentCall (e : Event) : bool :=
  match e with
  | EvQueryAgent _ | EvAnswerWithTools _ _ _ => true
  | _ => false
  end.

(** The agent calls of a trace, in order. *)
Definition agentCalls (tr : list Event) : list Event := filter isAgentCall tr.

Definition isLog (e : Event) : bool :=
  match e with
  | EvLogPrintf _ _ | EvLogFatalf _ _ => true
  | _ => false
  end.

(** The paths a trace opens, in order. *)
Definition openedPaths (tr : list Event) : list string :=
  omap (fun e => match e with EvOpen p => Some p | _ => None end) tr.

(** ** Paths *)

(** [os.PathSeparator] on Unix. *)
Definition PathSeparator : ascii := "/".

(** Whether the text of a directory ends in the separator. *)
Fixpoint endsInSeparator (dir : string) : bool :=
  match dir with
  | EmptyString => false
  | String c EmptyString => Ascii.eqb c PathSeparator
  | String _ rest => endsInSeparator rest
  end.

(** The text of a directory without its one trailing separator. *)
Fixpoint trimSeparator (dir : string) : string :=
  match dir with
  | EmptyString => EmptyString
  | String c EmptyString =>
      if Ascii.eqb c PathSeparator then EmptyString else dir
  | String c rest => String c (trimSeparator rest)
  end.

(** [path] names an entry of the directory written [dir]: [dir], one
    separator (unless [dir] already ends in one), and a name. *)
Definition namesEntryOf (dir path : string) : Prop :=
  exists name : string,
    path = trimSeparator dir +:+ String PathSeparator EmptyString +:+ name.


(** ** What the specification says the collector returns *)

(** The [id] of an instance when it is there and a string. *)
Definition stringId (instance : StateJSON.Instance) : option string :=
  match StateJSON.Attributes instance !! "id" with
  | Some (JString s) => Some s
  | _ => None
  end.

(** One record per instance with a string [id], resource by resource and
    instance by instance. *)
Definition declaredResources (state : StateJSON.t) : list TfResource :=
  flat_map
    (fun resource =>
       omap (fun instance =>
               match stringId instance with
               | Some s => Some {| Type_ := StateJSON.Type_ resource; Id := s |}
               | None => None
               end)
            (StateJSON.Instances resource))
    (StateJSON.Resources state).

(** How many instances of the snapshot carry a string [id]. *)
Definition countStringIds (state : StateJSON.t) : nat :=
  list_sum
    (map (fun resource =>
            length (filter (fun instance => is_Some (stringId instance))
                           (StateJSON.Instances resource)))
         (StateJSON.Resources state)).

(** ** What one cycle collects *)

(** The three inputs [getLLMSuggestions] hands to [runDiagnostics]. *)
Definition collectedResources (w : World) (d : ResourceData)
  : list TfResource :=
  default []
    (result (getAllResourcesTypeAndId w (execution_dir d +:+ "terraform.tfstate"))).

Definition collectedFiles (w : World) (d : ResourceData) : string :=
  match result (getAllResourcesFromTfFiles w (execution_dir d)) with
  | Some fromFiles => fst fromFiles
  | None => ""
  end.

Definition collectedDocs (w : World) : string :=
  match result (readAndConcatWebsiteFiles w "website") with
  | Some website => fst website
  | None => ""
  end.

(** The contents of the listed files that can be read, in listing order. *)
Definition readableContents (w : World) (files : list string) : list string :=
  omap (fun file => match readResult w file with
                    | Ok src => Some src
                    | Err _ => None
                    end) files.

(** The files [filepath.Glob] discovers; none under a malformed pattern. *)
Definition discoveredFiles (w : World) (dir : string) : list string :=
  match globResult w (joinPath w dir "*.tf") with
  | Ok files => files
  | Err _ => []
  end.

(** The events of [deferredClose]. *)
Definition closeTrace (w : World) (statePath : string) : list Event :=
  match closeResult w statePath with
  | Some e => [EvLogPrintf "[Error] Unable to close state file: %v" [AErr e]]
  | None => []
  end.

(** The files joined the way [getAllResourcesFromTfFiles] promises:
    each content followed by a line feed. *)
Fixpoint concatLines (contents : list string) : string :=
  match contents with
  | [] => ""
  | src :: contents' => src +:+ nl +:+ concatLines contents'
  end.

(** The report of a cycle: a line feed and then the text, for each of the
    three tasks [runDiagnostics] calls. *)
Definition sequentialReport (w : World) (d : ResourceData)
    (resources : list TfResource) (docs files : string) : string :=
  nl +:+ taskText w d resources docs files GoMissingResources
  +:+ nl +:+ taskText w d resources docs files GoGeneralTFBestPractices
  +:+ nl +:+ taskText w d resources docs files GoNewFeaturesSuggestions.

(** The one diagnostic both emitters build. *)
Definition suggestion (detail : string) : Diagnostic :=
  {| DSeverity := SevWarning;
     Summary := "Best Practice Suggestion";
     Detail := detail |}.

(** Where [saveHtmlToFile] writes, and what [createHtmlReport] gives it
    to write. *)
Definition htmlPath (w : World) (d : ResourceData) : string :=
  joinPath w
    (if String.eqb (execution_dir d) ""
     then match cwdResult w with Ok cwd => cwd | Err _ => "" end
     else execution_dir d)
    "llm_suggestion.html".

Definition htmlDocument (w : World) (finalAnswer : string) : string :=
  fst (agentReply w
         (fmt_Sprintf htmlContentFormat [escapeBraces finalAnswer])).

(** ** Sample worlds *)

Module Sample.

(** A state snapshot with one instance whose [id] is a string, one
    without [id], one whose [id] is a number and one whose [id] is
    null. *)
Definition state : StateJSON.t :=
  {| StateJSON.Resources :=
       [ {| StateJSON.Type_ := "incapsula_site";
            StateJSON.Instances :=
              [ {| StateJSON.Attributes :=
                     <["id" := JString "42"]>
                       (<["name" := JString "shop"]> ∅) |};
                {| StateJSON.Attributes :=
                     <["name" := JString "blog"]> ∅ |} ] |};
         {| StateJSON.Type_ := "incapsula_incap_rule";
            StateJSON.Instances :=
              [ {| StateJSON.Attributes := <["id" := JNumber 7%float]> ∅ |};
                {| StateJSON.Attributes := <["id" := JNull]> ∅ |} ] |} ] |}.

(** [filepath.Join] of a directory and a file name that need no
    cleaning. *)
Definition join (a b : string) : string :=
  if String.eqb a "" then b else trimSeparator a +:+ "/" +:+ b.

(** A pattern that opens a character class and never closes it is
    malformed. *)
Definition badPattern (pattern : string) : bool :=
  strings_Contains pattern "[" && negb (strings_Contains pattern "]").

Definition glob (pattern : string) : Result (list string) :=
  if badPattern pattern then Err "syntax error in pattern"
  else if String.eqb pattern "proj/*.tf"
       then Ok ["proj/main.tf"; "proj/secret.tf"; "proj/vars.tf"]
       else Ok [].

Definition read (name : string) : Result string :=
  if String.eqb name "proj/main.tf" then Ok "resource A"
  else if String.eqb name "proj/vars.tf" then Ok "variable B"
  else if String.eqb name "website/docs/site.md" then Ok "DOCS"
  else Err ("open " +:+ name +:+ ": permission denied").

Definition walk (root : string) : list WalkEntry :=
  [ {| walkPath := root; walkIsDir := true; walkErr := None |};
    {| walkPath := root +:+ "/docs"; walkIsDir := true; walkErr := None |};
    {| walkPath := root +:+ "/docs/site.md";
       walkIsDir := false; walkErr := None |} ].

(** An agent that tells the four requests apart by how they begin. *)
Definition agent (question : string) : string * option error :=
  if strings_HasPrefix question
       "You are an expert Terraform engineer and cloud architect."
  then ("PRACTICES", None)
  else if strings_HasPrefix question
            "You are an infrastructure-as-code assistant"
  then ("FEATURES", None)
  else if strings_HasPrefix question
            (nl +:+ "You are an expert Terraform engineer specializing")
  then ("REPLACEMENTS", None)
  else if strings_HasPrefix question
            (nl +:+ "You are a system that takes a final answer")
  then ("<html>report</html>", None)
  else ("", Some "unexpected request").

Definition toolAgent (question apiId apiKey : string)
  : string * option error := ("MISSING", None).

(** The same agents with the best-practices request failing. *)
Definition failingAgent (question : string) : string * option error :=
  if strings_HasPrefix question
       "You are an expert Terraform engineer and cloud architect."
  then ("", Some "503 Service Unavailable")
  else agent question.

Definition world (cwd : Result string) (write : option error)
    (reply : string -> string * option error) : World :=
  {| cwdResult := cwd;
     openResult := fun name =>
       if String.eqb name "proj/terraform.tfstate" then Ok "STATE"
       else if String.eqb name "broken/terraform.tfstate" then Ok "{"
       else Err ("open " +:+ name +:+ ": no such file or directory");
     closeResult := fun _ => None;
     decodeResult := fun bytes =>
       if String.eqb bytes "STATE" then Ok state
       else Err "unexpected EOF";
     joinPath := join;
     globResult := glob;
     readResult := read;
     writeResult := fun _ _ => write;
     walkCalls := walk;
     agentReply := reply;
     toolAgentReply := toolAgent |}.

(** Everything works. *)
Definition fine : World := world (Ok "/work") None agent.

(** The execution directory cannot be written. *)
Definition readOnly : World :=
  world (Ok "/work") (Some "permission denied") agent.

(** The working directory cannot be determined. *)
Definition lost : World := world (Err "getwd: no such file or directory") None agent.

(** One task fails. *)
Definition flaky : World := world (Ok "/work") None failingAgent.

Definition config (dir : string) : ResourceData :=
  {| api_id := "id"; api_key := "key"; execution_dir := dir |}.

End Sample.


(** ** Reading the documentation tree *)

(** The entries of a walk that are files, by path and in walk order. *)
Definition walkedFiles (calls : list WalkEntry) : list string :=
  map walkPath (filter (fun c => walkIsDir c = false) calls).

(** Texts put end to end, as [strings.Builder] does. *)
Fixpoint concatAll (contents : list string) : string :=
  match contents with
  | [] => ""
  | src :: contents' => src +:+ concatAll contents'
  end.

(** An entry the walk function gets past: [WalkDir] reports no error for
    it, and it is a directory or a file that can be read. *)
Definition entryPasses (w : World) (c : WalkEntry) : Prop :=
  walkErr c = None
  /\ (walkIsDir c = false -> exists src, readResult w (walkPath c) = Ok src).

(** An entry at which the walk function returns the error [e]: the one
    [WalkDir] reports for it, or the one of reading the file. *)
Definition entryFailsWith (w : World) (c : WalkEntry) (e : error) : Prop :=
  walkErr c = Some e
  \/ (walkErr c = None /\ walkIsDir c = false
      /\ readResult w (walkPath c) = Err e).

(** The file the failing entry had read, if the failure is a read. *)
Definition failedRead (c : WalkEntry) : list string :=
  match walkErr c with
  | Some _ => []
  | None => [walkPath c]
  end.

(** ** Counting the instances of a snapshot *)

Definition allAttributes (state : StateJSON.t) : list (gmap string JValue) :=
  flat_map (fun resource => map StateJSON.Attributes (StateJSON.Instances resource))
           (StateJSON.Resources state).

Definition everyInstanceHasStringId (state : StateJSON.t) : Prop :=
  forall resource instance,
    resource ∈ StateJSON.Resources state ->
    instance ∈ StateJSON.Instances resource ->
    is_Some (stringId instance).

Module Sample2.

(** A world whose documentation tree holds a file that cannot be read
    between two that can. *)
Definition walk (root : string) : list WalkEntry :=
  [ {| walkPath := root; walkIsDir := true; walkErr := None |};
    {| walkPath := root +:+ "/docs/site.md";
       walkIsDir := false; walkErr := None |};
    {| walkPath := root +:+ "/docs/locked.md";
       walkIsDir := false; walkErr := None |};
    {| walkPath := root +:+ "/docs/rule.md";
       walkIsDir := false; walkErr := None |} ].

Definition lockedDocs : World :=
  {| cwdResult := Ok "/work";
     openResult := openResult Sample.fine;
     closeResult := closeResult Sample.fine;
     decodeResult := decodeResult Sample.fine;
     joinPath := Sample.join;
     globResult := Sample.glob;
     readResult := Sample.read;
     writeResult := fun _ _ => None;
     walkCalls := walk;
     agentReply := Sample.agent;
     toolAgentReply := Sample.toolAgent |}.

End Sample2.

(** ** The fixed part of each request *)

(** A format string without its closing [%s]. *)
Definition withoutLastVerb (format : string) : string :=
  String.substring 0 (String.length format - 2) format.

Definition bestPracticesInstructions : string :=
  withoutLastVerb bestPracticesFormat.

Definition replaceSuggestionsInstructions : string :=
  withoutLastVerb replaceSuggestionsFormat.

Definition htmlContentInstructions : string :=
  withoutLastVerb htmlContentFormat.

(** The text of [newFeaturesFormat] before its first [%s]. *)
Definition newFeaturesInstructions : string :=
  String.substring 0 (String.length newFeaturesFormat - 76) newFeaturesFormat.

(** Whether a text is free of the character [%]. *)
Fixpoint noVerb (s : string) : bool :=
  match s with
  | EmptyString => true
  | String c s' => negb (Ascii.eqb c "%") && noVerb s'
  end.


(** What is left to do in a state of the concurrent function: two steps
    for a goroutine still calling, one for a value still held. *)
Definition stepsLeft (s : ParState) : nat :=
  2 * length (calling s) + length (holding s).

(** ** Events that change the world *)

Definition isWrite (e : Event) : bool :=
  match e with
  | EvWriteFile _ _ => true
  | _ => false
  end.

Definition isFatal (e : Event) : bool :=
  match e with
  | EvLogFatalf _ _ => true
  | _ => false
  end.

(** ** Reading an inventory back *)

(** Whether a text is free of the character [c]. *)
Fixpoint freeOf (c : ascii) (s : string) : bool :=
  match s with
  | EmptyString => true
  | String x s' => negb (Ascii.eqb x c) && freeOf c s'
  end.

(** A record whose type holds no space and whose id holds no closing
    brace. *)
Definition plainRecord (r : TfResource) : Prop :=
  freeOf " " (Type_ r) = true /\ freeOf "}" (Id r) = true.

(** ** Configuring the provider *)

(** The whole of [d]: the three settings above and the four base URLs
    that [providerConfigure] also reads with [d.Get]. *)
Record ProviderData := {
  settings : ResourceData;
  base_url : string;
  base_url_rev_2 : string;
  base_url_rev_3 : string;
  base_url_api : string }.

(** [Config], as [providerConfigure] fills it. *)
Record Config := {
  APIID : string;
  APIKey : string;
  ExecutionDir : string;
  BaseURL : string;
  BaseURLRev2 : string;
  BaseURLRev3 : string;
  BaseURLAPI : string }.

Section Configure.

(** The client type and [config.Client()], which another file of the
    package declares: it returns [(client, err)], the client an
    [interface{}] that may be nil. *)
Variable Client : Type.
Variable configClient : Config -> option Client * option error.

Definition providerConfigure (d : ProviderData) (terraformVersion : string)
  : option Client * option error :=
  let config :=
    {| APIID := api_id (settings d);
       APIKey := api_key (settings d);
       ExecutionDir := execution_dir (settings d);
       BaseURL := base_url d;
       BaseURLRev2 := base_url_rev_2 d;
       BaseURLRev3 := base_url_rev_3 d;
       BaseURLAPI := base_url_api d |} in
  configClient config.

(** [provider.ConfigureContextFunc], for a provider whose
    [TerraformVersion] is [version]. *)
Definition ConfigureContextFunc (w : World) (version : string)
    (d : ProviderData) : IO (option Client * Diagnostics) :=
  let terraformVersion := version in
  let terraformVersion :=
    if String.eqb terraformVersion "" then "0.11+compatible"
    else terraformVersion in
  diags <- getLLMSuggestions w (settings d) ;;
  let client := fst (providerConfigure d terraformVersion) in
  ret (client, diags).

End Configure.

Module Sample3.

Definition data (dir : string) : ProviderData :=
  {| settings := Sample.config dir;
     base_url := "https://my.incapsula.com/api/prov/v1";
     base_url_rev_2 := "https://my.imperva.com/api/prov/v2";
     base_url_rev_3 := "https://my.imperva.com/api/prov/v3";
     base_url_api := "https://api.imperva.com" |}.

(** A [config.Client()] that refuses a configuration without API key or
    identifier. *)
Definition client (c : Config) : option Config * option error :=
  if String.eqb (APIID c) "" || String.eqb (APIKey c) ""
  then (None, Some "missing API credentials")
  else (Some c, None).

Definition anonymous : ProviderData :=
  {| settings := {| api_id := ""; api_key := ""; execution_dir := "proj/" |};
     base_url := ""; base_url_rev_2 := ""; base_url_rev_3 := "";
     base_url_api := "" |}.

End Sample3.

(** ** The cycle of the other copy *)

(** The second copy of [provider.go] differs in its texts and in
    [runDiagnostics], which calls all four tasks, puts their texts end to
    end and renders them; its [getLLMSuggestions] reads no documentation
    tree.  The collectors, [saveHtmlToFile] and [getAiAnswer] are the
    same in both copies. *)
Module OtherCycle.

(** The format string of [getHtmlContent] in the other copy. *)
Definition htmlContentFormat : string :=
  "
You are a system that takes a final answer to the user question and turns that answer into a single, well-structured, visually organized HTML file.

Overall behavior

Transform that explanation into a self-contained HTML document that:

Uses semantic structure (sections, headings, lists).

Uses a simple but attractive layout (cards, columns, timelines, etc.).

Includes inline CSS so it can be saved directly as index.html and opened in a browser.

Output only the final HTML. Do not include any explanations, comments, or markdown.

Content requirements

Identify:

Main idea / overview

3‚Äì7 key points or components

Any process, timeline, or hierarchy that can be visualized

Summarize in clear, concise text (no huge paragraphs).

All code snippets MUST be included in the recomendations.

HTML requirements:

Produce a complete HTML5 document:

Use this structure (adapt as needed):

<html>, <head>, <body> with:

<meta charset="
  +:+ dq +:+ "UTF-8"
  +:+ dq +:+ ">

<title>: short title derived from the topic

<style>: all CSS inline in the head (no external files)

In <body>:

A top header with:

Main title

Short subtitle/description

A main content container with:

Overview section

Cards or columns for key points

At least one ‚Äúgraphic‚Äù layout:

E.g. a timeline, process flow, comparison table, or step boxes

These can be built using HTML + CSS (no JS required).

Visual style guidelines:

Use a clean, modern layout with:

A max-width centered container

Some padding and spacing between sections

Rounded corners and subtle box shadows for cards

Use CSS Flexbox or CSS Grid for multi-column layouts where helpful.

Use readable fonts (e.g. system fonts via font-family: system-ui, -apple-system, BlinkMacSystemFont, "
  +:+ dq +:+ "Segoe UI"
  +:+ dq +:+ ", sans-serif;).

Use a light background and slightly darker cards, with clear contrast between headings and body text.

Use consistent heading sizes (e.g., h1 main title, h2 section titles, h3 card titles).

Use icons or emojis where helpful (e.g. ‚úÖ, ‚öôÔ∏è, üìå, ‚è±Ô∏è) but not excessively.

Accessibility:

Ensure good color contrast.

Structure headings in order (h1, then h2, etc.).

Use lists (<ul>, <ol>) instead of manually formatted bullets.

No JavaScript is required unless it‚Äôs absolutely necessary for layout; prefer pure HTML + CSS.

Output format

Return only the finished HTML document.

Do not wrap it in code fences.

Do not add any explanation or commentary.

User request to base the HTML on: %s".

(** The format string of [getImpervaResourceReplaceSuggestions] in the other copy. *)
Definition replaceSuggestionsFormat : string :=
  "You are an expert Terraform engineer specializing in provider-level correctness.
Your task is to analyze Terraform files I provide and compare them against the current official provider documentation.

When I give you Terraform files, follow all instructions below:

What You Must Do
1. Identify Issues
2. Provide Exact Replacement Snippets

Focus on the following areas, arranged by priority:

Deprecated resources

Deprecated arguments or attributes

Removed or breaking-change arguments

Misconfigurations that differ from current provider requirements

Arguments that should be nested or relocated (based on provider updates)

Required attributes that are missing

Any incorrect or outdated configuration patterns

For each issue identified, provide:  
- A clear description of the problem.  
- The original Terraform snippet.  
- An improved Terraform snippet (ready to paste).  
- A brief explanation of why the improvement is necessary and how it aligns with best practices.

Important Instructions:
- Keep context and variable names unless renaming is part of the improvement, and don't suggest names that already exists'
- Combine multiple improvements into one clean replacement snippet.
- Ensure the replacement is syntactically correct.
- Never output partial fragments‚Äîalways provide complete blocks.

3. Output Format (Must Follow Exactly)

For every issue:

Issue <number> ‚Äî <short title>

Original snippet:

<original>

Improved snippet:

<improved>

Explanation:
<clear explanation>

After analyzing all issues:

Summary of Improvements

- Bullet points summarizing key changes.

Important Rules

- Do not invent architecture not implied by the code.
- Only modify what is necessary.
- Keep improvements realistic and aligned with actual Terraform usage.
- If something looks dangerous or costly, call it out clearly.
- If the provided Terraform is already optimal, say so and explain why.

The current Terraform resources are as follows: %s".

(** The format string of [getGeneralTFBestPractices] in the other copy. *)
Definition bestPracticesFormat : string :=
  "You are an expert Terraform engineer and cloud architect.
Your task is to analyze the Terraform code I provide and suggest improvements strictly following Terraform best practices specified in the following link: https://www.terraform-best-practices.com/

When I give you Terraform files, follow all instructions below:

What You Must Do
1. Identify Issues
2. Provide Exact Replacement Snippets

Focus on the following areas, arranged by priority:

	1. **Security Best Practices**  
	   - Ensure secrets values like passwords are not hard-coded
	   - Verify IAM policies follow the principle of least privilege, avoiding overly permissive roles.  
	   - Check for proper encryption of sensitive data both in transit and at rest.  
	
	2. **Provider and Resource Configuration**  
	   - Identify deprecated arguments, or attributes and suggest replacements based on the latest provider documentation.  
	   - Ensure provider configurations are correct and up-to-date, including version pinning to avoid unexpected behavior.  
	
	3. **Code Modularity and Reusability**  
	   - Evaluate the use of modules to ensure proper structure and reusability of Terraform code.  
	   - Identify opportunities to refactor repetitive code into reusable modules.  
	
	4. **Variable and Input Validation**  
	   - Replace hard-coded values with variables to improve flexibility and maintainability.  
	   - Ensure variables have proper types, validation rules, and default values where applicable.  
	
	5. **Resource Naming and Tagging**  
	   - Check for consistent and meaningful resource naming conventions and not the resource parameters.
	   - Ensure resources are tagged with metadata (e.g., environment, owner, purpose) to improve management and cost tracking.  
	
	6. **Cost Optimization and Efficiency**  
	   - Identify inefficient or costly configurations and suggest improvements to reduce resource usage and expenses.  
	
	7. **General Best Practices**  
	   - Ensure the code adheres to Terraform and cloud provider best practices, avoiding anti-patterns or risky configurations.  
	   - Verify that all required attributes are present and correctly configured.  

For each issue identified, provide:  
- A clear description of the problem.  
- The original Terraform snippet.  
- An improved Terraform snippet (ready to paste).  
- A brief explanation of why the improvement is necessary and how it aligns with best practices.

Important Instructions:
- Keep context and variable names unless renaming is part of the improvement, and don't suggest names that already exists'
- Combine multiple improvements into one clean replacement snippet.
- Ensure the replacement is syntactically correct.
- Never output partial fragments‚Äîalways provide complete blocks.

3. Output Format (Must Follow Exactly)

For every issue:

Issue <number> ‚Äî <short title>

Original snippet:

<original>

Improved snippet:

<improved>

Explanation:
<clear explanation>

After analyzing all issues:

Summary of Improvements

- Bullet points summarizing key changes.

Important Rules

- Do not invent architecture not implied by the code.
- Only modify what is necessary.
- Keep improvements realistic and aligned with actual Terraform usage.
- If something looks dangerous or costly, call it out clearly.
- If the provided Terraform is already optimal, say so and explain why.

The current Terraform resources are as follows: %s".

Section Cycle.

Variable w : World.

(** [getLastMonthsReleaseNotes] drives a browser over the release-note
    pages of the vendor: what it returns, the lines it logs and whether it
    ends the process with [log.Fatalf] are the browser's to decide. *)
Variable getLastMonthsReleaseNotes : IO string.

Definition getGeneralTFBestPractices (resources : string) : IO string :=
  let question := fmt_Sprintf bestPracticesFormat [resources] in
  answer <- queryAgent w question ;;
  ret (fst answer).

Definition getImpervaResourceReplaceSuggestions (d : ResourceData)
    (resources : string) : IO string :=
  let question := fmt_Sprintf replaceSuggestionsFormat [resources] in
  answer <- queryAgent w question ;;
  ret (fst answer).

Definition getImpervaNewFeaturesSuggestions (d : ResourceData)
    (resources : string) : IO string :=
  releaseNotes <- getLastMonthsReleaseNotes ;;
  let question :=
    "you are slim shady, whats your name? out put should be a string only."
    +:+ releaseNotes in
  answer <- queryAgent w question ;;
  ret (fst answer).

Definition getHtmlContent (d : ResourceData) (finalAnswer : string)
  : IO string :=
  let question := fmt_Sprintf htmlContentFormat [finalAnswer] in
  answer <- queryAgent w question ;;
  ret (fst answer).

Definition runDiagnostics (d : ResourceData) (resources : list TfResource)
    (allResourcesFromFiles : string) : IO Diagnostics :=
  let diags : Diagnostics := [] in
  let answer := "" in
  a <- OtherCopy.getMissingResources w d resources ;;
  let answer := answer +:+ a in
  a <- getGeneralTFBestPractices allResourcesFromFiles ;;
  let answer := answer +:+ a in
  a <- getImpervaResourceReplaceSuggestions d allResourcesFromFiles ;;
  let answer := answer +:+ a in
  a <- getImpervaNewFeaturesSuggestions d allResourcesFromFiles ;;
  let answer := answer +:+ a in
  htmlFile <- getHtmlContent d answer ;;
  link <- saveHtmlToFile w d htmlFile ;;
  let answerWithImage := getAiAnswer link in
  let diags := diags ++ [{| DSeverity := SevWarning;
                            Summary := "Best Practice Suggestion";
                            Detail := answerWithImage |}] in
  print htmlFile ;;;
  ret diags.

Definition getLLMSuggestions (d : ResourceData) : IO Diagnostics :=
  cwd <- os_Getwd w ;;
  cwd <- match cwd with
         | Err e =>
             log_Fatalf "Failed to get current working directory: %v"
                        [AErr e]
         | Ok cwd => ret cwd
         end ;;
  log_Printf cwd [] ;;;
  let dir := execution_dir d in
  allResourcesFromState <-
    getAllResourcesFromState w (dir +:+ "terraform.tfstate") ;;
  forRange allResourcesFromState
    (fun res => log_Printf ("Resource: %s" +:+ nl) [AAttrs res]) ;;;
  resources <- getAllResourcesTypeAndId w (dir +:+ "terraform.tfstate") ;;
  forRange resources
    (fun res => log_Printf ("Resource Type: %s, ID: %s" +:+ nl)
                           [AStr (Type_ res); AStr (Id res)]) ;;;
  fromFiles <- getAllResourcesFromTfFiles w dir ;;
  let allResourcesFromFiles := fst fromFiles in
  log_Printf ("Resource from file: %s" +:+ nl) [AStr allResourcesFromFiles] ;;;
  runDiagnostics d resources allResourcesFromFiles.

(** The texts of the first three tasks. *)
Definition missingText (d : ResourceData) : string :=
  fst (toolAgentReply w OtherCopy.missingResourcesQuestion
         (api_id d) (api_key d)).

Definition practicesText (files : string) : string :=
  fst (agentReply w (fmt_Sprintf bestPracticesFormat [files])).

Definition replaceText (files : string) : string :=
  fst (agentReply w (fmt_Sprintf replaceSuggestionsFormat [files])).

(** The three agent calls that come before the release notes are
    fetched. *)
Definition firstCalls (d : ResourceData) (files : string) : list Event :=
  [EvAnswerWithTools OtherCopy.missingResourcesQuestion (api_id d) (api_key d);
   EvQueryAgent (fmt_Sprintf bestPracticesFormat [files]);
   EvQueryAgent (fmt_Sprintf replaceSuggestionsFormat [files])].

End Cycle.

End OtherCycle.
(** ** Laws of the trace monad *)

Lemma bind_ret_l {A B} (a : A) (k : A -> IO B) : bind (ret a) k = k a.
Proof. unfold bind, ret. destruct (k a) as [r tr]. reflexivity. Qed.

Lemma bind_run {A B} (m : IO A) (k : A -> IO B) a tr :
  m = (Some a, tr) ->
  bind m k = (result (k a), tr ++ trace (k a)).
Proof. intros ->. unfold bind, result, trace. destruct (k a); reflexivity. Qed.

Lemma bind_exit {A B} (m : IO A) (k : A -> IO B) tr :
  m = (None, tr) -> bind m k = (None, tr).
Proof. intros ->. reflexivity. Qed.

Lemma result_bind {A B} (m : IO A) (k : A -> IO B) a :
  result m = Some a -> result (bind m k) = result (k a).
Proof.
  destruct m as [r tr]; simpl; intros ->.
  unfold bind, result. destruct (k a); reflexivity.
Qed.

Lemma trace_bind {A B} (m : IO A) (k : A -> IO B) a :
  result m = Some a -> trace (bind m k) = trace m ++ trace (k a).
Proof.
  destruct m as [r tr]; simpl; intros ->.
  unfold bind, trace. destruct (k a); reflexivity.
Qed.

Lemma io_eta {A} (m : IO A) : m = (result m, trace m).
Proof. destruct m; reflexivity. Qed.

Lemma agentCalls_app tr1 tr2 :
  agentCalls (tr1 ++ tr2) = agentCalls tr1 ++ agentCalls tr2.
Proof. apply filter_app. Qed.

Lemma openedPaths_app tr1 tr2 :
  openedPaths (tr1 ++ tr2) = openedPaths tr1 ++ openedPaths tr2.
Proof. apply omap_app. Qed.

Lemma omap_cons {A B} (f : A -> option B) (x : A) (l : list A) :
  omap f (x :: l)
  = match f x with Some y => y :: omap f l | None => omap f l end.
Proof. reflexivity. Qed.

(** ** Strings, continued *)

Lemma append_cons (c : ascii) (s t : string) :
  String c s +:+ t = String c (s +:+ t).
Proof. reflexivity. Qed.

Lemma append_nil_l (s : string) : "" +:+ s = s.
Proof. reflexivity. Qed.

Lemma append_nil_r (s : string) : s +:+ "" = s.
Proof.
  induction s as [|c s IH]; [reflexivity|].
  rewrite append_cons. f_equal. exact IH.
Qed.

Lemma append_assoc (a b c : string) : (a +:+ b) +:+ c = a +:+ (b +:+ c).
Proof.
  induction a as [|x a IH]; [reflexivity|].
  rewrite !append_cons. f_equal. exact IH.
Qed.



Lemma Contains_app_r (s t sub : string) :
  strings_Contains t sub = true -> strings_Contains (s +:+ t) sub = true.
Proof.
  intros H. induction s as [|x s IH]; [exact H|].
  rewrite append_cons. simpl.
  apply orb_true_iff. right. exact IH.
Qed.

Lemma fmt_Sprintf_head (c : ascii) (rest : string) (args : list string) :
  Ascii.eqb c "%" = false ->
  fmt_Sprintf (String c rest) args = String c (fmt_Sprintf rest args).
Proof. intros H. cbn [fmt_Sprintf]. now rewrite H. Qed.

(** ** Report emission *)

(** C9.  [createResponse] returns for every text, the empty one and any
    other: exactly one diagnostic, of warning severity, whose detail is
    the text; its only effect is to print the text. *)
Theorem createResponse_total (d : ResourceData) (answer : string) :
  exists diag : Diagnostic,
    createResponse d answer = (Some [diag], [EvPrint answer])
    /\ DSeverity diag = SevWarning
    /\ Summary diag = "Best Practice Suggestion"
    /\ Detail diag = answer.
Proof.
  eexists. split; [unfold createResponse, print, emit, bind, ret; simpl|].
  - reflexivity.
  - repeat split.
Qed.

(** ** The state collector *)

Lemma appendTypeAndId_fold (type : string) instances acc :
  fold_left (appendTypeAndId type) instances acc
  = acc ++ omap (fun instance =>
                   match stringId instance with
                   | Some s => Some {| Type_ := type; Id := s |}
                   | None => None
                   end) instances.
Proof.
  revert acc. induction instances as [|i instances IH]; intros acc.
  - simpl. now rewrite app_nil_r.
  - rewrite omap_cons. simpl fold_left. rewrite IH.
    unfold appendTypeAndId, stringId.
    destruct (StateJSON.Attributes i !! "id") as [[]|];
      try reflexivity.
    now rewrite <- app_assoc.
Qed.

Lemma typeAndIdLoop_declared (state : StateJSON.t) :
  typeAndIdLoop state = declaredResources state.
Proof.
  unfold typeAndIdLoop, declaredResources.
  generalize (StateJSON.Resources state) as rs.
  assert (G : forall rs acc,
    fold_left
      (fun resources resource =>
         fold_left (appendTypeAndId (StateJSON.Type_ resource))
                   (StateJSON.Instances resource) resources) rs acc
    = acc ++ flat_map
        (fun resource =>
           omap (fun instance =>
                   match stringId instance with
                   | Some s =>
                       Some {| Type_ := StateJSON.Type_ resource; Id := s |}
                   | None => None
                   end) (StateJSON.Instances resource)) rs).
  { induction rs as [|r rs IH]; intros acc; simpl.
    - now rewrite app_nil_r.
    - rewrite IH, appendTypeAndId_fold. now rewrite <- app_assoc. }
  intros rs. apply (G rs []).
Qed.

Lemma omap_stringId_length (type : string) instances :
  length (omap (fun instance =>
                  match stringId instance with
                  | Some s => Some {| Type_ := type; Id := s |}
                  | None => None
                  end) instances)
  = length (filter (fun instance => is_Some (stringId instance)) instances).
Proof.
  induction instances as [|i instances IH]; [reflexivity|].
  destruct (stringId i) as [s|] eqn:E.
  - rewrite filter_cons_True by (rewrite E; eauto).
    rewrite omap_cons, E. simpl. now rewrite IH.
  - rewrite filter_cons_False by (rewrite E; intros [? ?]; discriminate).
    rewrite omap_cons, E. exact IH.
Qed.

Lemma declaredResources_length (state : StateJSON.t) :
  length (declaredResources state) = countStringIds state.
Proof.
  unfold declaredResources, countStringIds.
  induction (StateJSON.Resources state) as [|r rs IH]; [reflexivity|].
  simpl. rewrite length_app, IH, omap_stringId_length. reflexivity.
Qed.

Lemma stringId_Some (instance : StateJSON.Instance) (s : string) :
  stringId instance = Some s
  <-> StateJSON.Attributes instance !! "id" = Some (JString s).
Proof.
  unfold stringId.
  destruct (StateJSON.Attributes instance !! "id") as [[]|];
    split; intros H; try discriminate; congruence.
Qed.

Lemma declaredResources_elem (state : StateJSON.t) (r : TfResource) :
  r ∈ declaredResources state
  <-> exists resource instance,
        resource ∈ StateJSON.Resources state
        /\ instance ∈ StateJSON.Instances resource
        /\ StateJSON.Attributes instance !! "id" = Some (JString (Id r))
        /\ Type_ r = StateJSON.Type_ resource.
Proof.
  unfold declaredResources. rewrite list_elem_of_In, in_flat_map. split.
  - intros (resource & Hres & Hin).
    apply list_elem_of_In, list_elem_of_omap in Hin as (instance & Hi & Hs).
    destruct (stringId instance) as [s|] eqn:E; [|discriminate].
    injection Hs as <-. exists resource, instance.
    rewrite list_elem_of_In. repeat split; try assumption.
    now apply stringId_Some.
  - intros (resource & instance & Hres & Hi & Hid & Hty).
    exists resource. split; [now apply list_elem_of_In|].
    apply list_elem_of_In, list_elem_of_omap. exists instance.
    split; [assumption|]. apply stringId_Some in Hid. rewrite Hid.
    destruct r; simpl in *. now subst.
Qed.

Lemma getAllResourcesTypeAndId_run (w : World) (statePath : string) :
  getAllResourcesTypeAndId w statePath
  = match openResult w statePath with
    | Err e =>
        (Some [],
         [EvOpen statePath;
          EvLogPrintf "[Error] Unable to open state file: %v" [AErr e]])
    | Ok bytes =>
        match decodeResult w bytes with
        | Err e =>
            (Some [],
             EvOpen statePath
             :: EvLogPrintf "[Error] Unable to decode state file: %v" [AErr e]
             :: closeTrace w statePath)
        | Ok state =>
            (Some (typeAndIdLoop state), EvOpen statePath :: closeTrace w statePath)
        end
    end.
Proof.
  unfold getAllResourcesTypeAndId, os_Open, deferredClose, closeTrace.
  unfold bind, emit, ret, log_Printf.
  destruct (openResult w statePath) as [bytes|e]; simpl; [|reflexivity].
  destruct (decodeResult w bytes) as [state|e]; simpl;
    destruct (closeResult w statePath); reflexivity.
Qed.

Lemma getAllResourcesFromState_run (w : World) (statePath : string) :
  getAllResourcesFromState w statePath
  = match openResult w statePath with
    | Err e =>
        (Some [],
         [EvOpen statePath;
          EvLogPrintf "[Error] Unable to open state file: %v" [AErr e]])
    | Ok bytes =>
        match decodeResult w bytes with
        | Err e =>
            (Some [],
             EvOpen statePath
             :: EvLogPrintf "[Error] Unable to decode state file: %v" [AErr e]
             :: closeTrace w statePath)
        | Ok state =>
            (Some (attributesLoop state), EvOpen statePath :: closeTrace w statePath)
        end
    end.
Proof.
  unfold getAllResourcesFromState, os_Open, deferredClose, closeTrace.
  unfold bind, emit, ret, log_Printf.
  destruct (openResult w statePath) as [bytes|e]; simpl; [|reflexivity].
  destruct (decodeResult w bytes) as [state|e]; simpl;
    destruct (closeResult w statePath); reflexivity.
Qed.

(** C3.  When the state file opens and decodes, [getAllResourcesTypeAndId]
    returns one record, type and id, for each instance whose attributes
    hold a string under ["id"], in the order of the snapshot, and nothing
    else: as many records as there are such instances, and a record is
    returned exactly when some instance of some resource of its type has
    its id as a string. *)
Theorem getAllResourcesTypeAndId_exact
    (w : World) (statePath bytes : string) (state : StateJSON.t) :
  openResult w statePath = Ok bytes ->
  decodeResult w bytes = Ok state ->
  result (getAllResourcesTypeAndId w statePath) = Some (declaredResources state)
  /\ length (declaredResources state) = countStringIds state
  /\ forall r : TfResource,
       r ∈ declaredResources state
       <-> exists resource instance,
             resource ∈ StateJSON.Resources state
             /\ instance ∈ StateJSON.Instances resource
             /\ StateJSON.Attributes instance !! "id" = Some (JString (Id r))
             /\ Type_ r = StateJSON.Type_ resource.
Proof.
  intros Hopen Hdecode. split; [|split].
  - rewrite getAllResourcesTypeAndId_run, Hopen, Hdecode. simpl.
    now rewrite typeAndIdLoop_declared.
  - apply declaredResources_length.
  - apply declaredResources_elem.
Qed.

Lemma getAllResourcesTypeAndId_exact_witness :
  openResult Sample.fine "proj/terraform.tfstate" = Ok "STATE"
  /\ decodeResult Sample.fine "STATE" = Ok Sample.state
  /\ result (getAllResourcesTypeAndId Sample.fine "proj/terraform.tfstate")
     = Some [{| Type_ := "incapsula_site"; Id := "42" |}]
  /\ countStringIds Sample.state = 1.
Proof.
  split; [reflexivity|]. split; [reflexivity|].
  destruct (getAllResourcesTypeAndId_exact Sample.fine
              "proj/terraform.tfstate" "STATE" Sample.state
              eq_refl eq_refl) as (Hres & Hlen & _).
  split.
  - rewrite Hres. vm_compute. reflexivity.
  - rewrite <- Hlen. vm_compute. reflexivity.
Defined.

(** ** The configuration collector *)

Lemma readTfFiles_run (w : World) (files : list string) (content : string) :
  readTfFiles w files content
  = (Some (content +:+ concatLines (readableContents w files)),
     map EvReadFile files).
Proof.
  revert content. induction files as [|file files IH]; intros content.
  - simpl. now rewrite append_nil_r.
  - simpl readTfFiles. unfold ioutil_ReadFile, readableContents.
    rewrite omap_cons. unfold bind, emit, ret. simpl.
    destruct (readResult w file) as [src|e]; rewrite IH; simpl.
    + now rewrite !append_assoc.
    + reflexivity.
Qed.

Lemma getAllResourcesFromTfFiles_run (w : World) (dir : string) :
  getAllResourcesFromTfFiles w dir
  = match globResult w (joinPath w dir "*.tf") with
    | Err e => (Some ("", Some e), [EvGlob (joinPath w dir "*.tf")])
    | Ok files =>
        (Some (concatLines (readableContents w files), None),
         EvGlob (joinPath w dir "*.tf") :: map EvReadFile files)
    end.
Proof.
  unfold getAllResourcesFromTfFiles, filepath_Glob, filepath_Join.
  unfold bind at 1, emit, ret. simpl.
  destruct (globResult w (joinPath w dir "*.tf")) as [files|e];
    [|reflexivity].
  rewrite readTfFiles_run. unfold bind. simpl.
  rewrite app_nil_r. reflexivity.
Qed.


(** C4, as the code has it.  The two state readers return no error and
    never end the process: a file that cannot be opened gives the empty
    inventory and one logged line, a file that cannot be decoded gives the
    empty inventory and one logged line (before the deferred close).  The
    configuration reader never ends the process either, but it does return
    an error to its caller, beside the empty string, when the pattern built
    from the directory is malformed; otherwise its error is nil. *)
Theorem collectors_degrade (w : World) (path : string) :
  match openResult w path with
  | Err e =>
      getAllResourcesTypeAndId w path
      = (Some [],
         [EvOpen path;
          EvLogPrintf "[Error] Unable to open state file: %v" [AErr e]])
      /\ getAllResourcesFromState w path
         = (Some [],
            [EvOpen path;
             EvLogPrintf "[Error] Unable to open state file: %v" [AErr e]])
  | Ok bytes =>
      match decodeResult w bytes with
      | Err e =>
          getAllResourcesTypeAndId w path
          = (Some [],
             EvOpen path
             :: EvLogPrintf "[Error] Unable to decode state file: %v" [AErr e]
             :: closeTrace w path)
          /\ getAllResourcesFromState w path
             = (Some [],
                EvOpen path
                :: EvLogPrintf "[Error] Unable to decode state file: %v"
                               [AErr e]
                :: closeTrace w path)
      | Ok state =>
          result (getAllResourcesTypeAndId w path) = Some (typeAndIdLoop state)
          /\ result (getAllResourcesFromState w path)
             = Some (attributesLoop state)
      end
  end
  /\ match globResult w (joinPath w path "*.tf") with
     | Err e => result (getAllResourcesFromTfFiles w path) = Some ("", Some e)
     | Ok files =>
         result (getAllResourcesFromTfFiles w path)
         = Some (concatLines (readableContents w files), None)
     end.
Proof.
  rewrite getAllResourcesTypeAndId_run, getAllResourcesFromState_run,
    getAllResourcesFromTfFiles_run.
  split.
  - destruct (openResult w path) as [bytes|e]; [|split; reflexivity].
    destruct (decodeResult w bytes); split; reflexivity.
  - destruct (globResult w (joinPath w path "*.tf")); reflexivity.
Qed.

(** C4, as the claim has it, fails: for the directory ["["] the pattern
    is malformed and the configuration reader returns the error of
    [filepath.Glob] to its caller. *)
Lemma collectors_return_no_error_counterexample :
  ~ (forall (w : World) (dir : string),
       exists content : string,
         result (getAllResourcesFromTfFiles w dir) = Some (content, None)).
Proof.
  intros H. destruct (H Sample.fine "[") as [content Hc].
  vm_compute in Hc. discriminate Hc.
Qed.



(** ** Running a cycle *)

#[local] Arguments fmt_Sprintf : simpl never.

Lemma bind_step {A B} (m : IO A) (k : A -> IO B) a tr r tr' :
  m = (Some a, tr) -> k a = (r, tr') -> bind m k = (r, tr ++ tr').
Proof. intros -> H. unfold bind. now rewrite H. Qed.

Lemma closeTrace_quiet (w : World) (path : string) :
  agentCalls (closeTrace w path) = [] /\ openedPaths (closeTrace w path) = [].
Proof. unfold closeTrace. destruct (closeResult w path); split; reflexivity. Qed.

Lemma getAllResourcesTypeAndId_total (w : World) (path : string) :
  exists v tr,
    getAllResourcesTypeAndId w path = (Some v, tr)
    /\ agentCalls tr = [] /\ openedPaths tr = [path].
Proof.
  rewrite getAllResourcesTypeAndId_run.
  destruct (closeTrace_quiet w path) as [Ha Ho].
  destruct (openResult w path) as [bytes|e].
  - destruct (decodeResult w bytes) as [state|e]; do 2 eexists;
      (split; [reflexivity|]); split.
    + exact Ha.
    + change (path :: openedPaths (closeTrace w path) = [path]).
      now rewrite Ho.
    + exact Ha.
    + change (path :: openedPaths (closeTrace w path) = [path]).
      now rewrite Ho.
  - do 2 eexists. split; [reflexivity|]. split; reflexivity.
Qed.

Lemma getAllResourcesFromState_total (w : World) (path : string) :
  exists v tr,
    getAllResourcesFromState w path = (Some v, tr)
    /\ agentCalls tr = [] /\ openedPaths tr = [path].
Proof.
  rewrite getAllResourcesFromState_run.
  destruct (closeTrace_quiet w path) as [Ha Ho].
  destruct (openResult w path) as [bytes|e].
  - destruct (decodeResult w bytes) as [state|e]; do 2 eexists;
      (split; [reflexivity|]); split.
    + exact Ha.
    + change (path :: openedPaths (closeTrace w path) = [path]).
      now rewrite Ho.
    + exact Ha.
    + change (path :: openedPaths (closeTrace w path) = [path]).
      now rewrite Ho.
  - do 2 eexists. split; [reflexivity|]. split; reflexivity.
Qed.

Lemma reads_quiet (files : list string) :
  agentCalls (map EvReadFile files) = []
  /\ openedPaths (map EvReadFile files) = [].
Proof. induction files as [|f files [IHa IHo]]; split; auto. Qed.

Lemma getAllResourcesFromTfFiles_total (w : World) (dir : string) :
  exists v tr,
    getAllResourcesFromTfFiles w dir = (Some v, tr)
    /\ agentCalls tr = [] /\ openedPaths tr = [].
Proof.
  rewrite getAllResourcesFromTfFiles_run.
  destruct (globResult w (joinPath w dir "*.tf")) as [files|e].
  - do 2 eexists. split; [reflexivity|].
    destruct (reads_quiet files) as [Ha Ho]. split.
    + exact Ha.
    + exact Ho.
  - do 2 eexists. split; [reflexivity|]. split; reflexivity.
Qed.

Lemma walkWebsiteFiles_total (w : World) (calls : list WalkEntry)
    (builder : string) :
  exists v files,
    walkWebsiteFiles w calls builder = (Some v, map EvReadFile files).
Proof.
  revert builder. induction calls as [|c calls IH]; intros builder.
  - exists (builder, None), []. reflexivity.
  - simpl. destruct (walkErr c) as [e|].
    + exists ("", Some e), []. reflexivity.
    + destruct (walkIsDir c); [apply IH|].
      unfold ioutil_ReadFile, bind, emit, ret. simpl.
      destruct (readResult w (walkPath c)) as [content|e].
      * destruct (IH (builder +:+ content)) as (v & files & E).
        exists v, (walkPath c :: files). now rewrite E.
      * exists ("", Some e), [walkPath c]. reflexivity.
Qed.

Lemma readAndConcatWebsiteFiles_total (w : World) (root : string) :
  exists v tr,
    readAndConcatWebsiteFiles w root = (Some v, tr)
    /\ agentCalls tr = [] /\ openedPaths tr = [].
Proof.
  unfold readAndConcatWebsiteFiles, filepath_WalkDir.
  destruct (walkWebsiteFiles_total w (walkCalls w root) "") as (v & files & E).
  exists v, (EvWalkDir root :: map EvReadFile files).
  unfold bind, emit, ret. simpl. rewrite E.
  split; [reflexivity|]. destruct (reads_quiet files) as [Ha Ho].
  split; [exact Ha | exact Ho].
Qed.

Lemma forRange_log {A} (l : list A) (format : A -> string)
    (args : A -> list LogArg) :
  exists tr,
    forRange l (fun x => log_Printf (format x) (args x)) = (Some tt, tr)
    /\ agentCalls tr = [] /\ openedPaths tr = [].
Proof.
  induction l as [|x l (tr & E & Ha & Ho)].
  - exists []. repeat split.
  - exists (EvLogPrintf (format x) (args x) :: tr).
    cbn [forRange]. unfold bind. rewrite E.
    repeat split; assumption.
Qed.

Lemma runDiagnostics_run (w : World) (d : ResourceData)
    (resources : list TfResource) (docs files : string) :
  runDiagnostics w d resources docs files
  = (Some (sequentialReport w d resources docs files),
     [taskCall d resources docs files GoMissingResources;
      taskCall d resources docs files GoGeneralTFBestPractices;
      taskCall d resources docs files GoNewFeaturesSuggestions]).
Proof.
  unfold runDiagnostics, getMissingResources, getGeneralTFBestPractices,
    getImpervaNewFeaturesSuggestions, answerWithTools, queryAgent,
    sequentialReport, taskText, taskCall.
  unfold bind, emit, ret. simpl.
  rewrite !append_assoc. reflexivity.
Qed.

Lemma createResponse_run (d : ResourceData) (answer : string) :
  createResponse d answer = (Some [suggestion answer], [EvPrint answer]).
Proof. reflexivity. Qed.

Lemma getLLMSuggestions_exit (w : World) (d : ResourceData) (e : error) :
  cwdResult w = Err e ->
  getLLMSuggestions w d
  = (None,
     [EvLogFatalf "Failed to get current working directory: %v" [AErr e]]).
Proof.
  intros Hcwd. unfold getLLMSuggestions, os_Getwd. rewrite Hcwd.
  reflexivity.
Qed.

Lemma getLLMSuggestions_run (w : World) (d : ResourceData) (cwd : string) :
  cwdResult w = Ok cwd ->
  let resources := collectedResources w d in
  let docs := collectedDocs w in
  let files := collectedFiles w d in
  exists tr,
    getLLMSuggestions w d
    = (Some [suggestion (sequentialReport w d resources docs files)], tr)
    /\ agentCalls tr
       = [taskCall d resources docs files GoMissingResources;
          taskCall d resources docs files GoGeneralTFBestPractices;
          taskCall d resources docs files GoNewFeaturesSuggestions]
    /\ openedPaths tr
       = [execution_dir d +:+ "terraform.tfstate";
          execution_dir d +:+ "terraform.tfstate"].
Proof.
  intros Hcwd resources docs files.
  set (p := execution_dir d +:+ "terraform.tfstate").
  destruct (getAllResourcesFromState_total w p) as (v1 & t1 & E1 & A1 & O1).
  destruct (forRange_log v1 (fun _ => "Resource: %s" +:+ nl)
              (fun res => [AAttrs res])) as (t2 & E2 & A2 & O2).
  destruct (getAllResourcesTypeAndId_total w p) as (v3 & t3 & E3 & A3 & O3).
  destruct (forRange_log v3 (fun _ => "Resource Type: %s, ID: %s" +:+ nl)
              (fun res => [AStr (Type_ res); AStr (Id res)]))
    as (t4 & E4 & A4 & O4).
  destruct (getAllResourcesFromTfFiles_total w (execution_dir d))
    as (v5 & t5 & E5 & A5 & O5).
  destruct (readAndConcatWebsiteFiles_total w "website")
    as (v6 & t6 & E6 & A6 & O6).
  assert (R : resources = v3).
  { unfold resources, collectedResources. fold p. now rewrite E3. }
  assert (F : files = fst v5).
  { unfold files, collectedFiles. now rewrite E5. }
  assert (D : docs = fst v6).
  { unfold docs, collectedDocs. now rewrite E6. }
  cbv beta in E2, E4.
  eexists. split; [|split].
  - unfold getLLMSuggestions, os_Getwd. rewrite Hcwd. fold p.
    eapply bind_step; [reflexivity|].
    eapply bind_step; [reflexivity|].
    eapply bind_step; [reflexivity|].
    eapply bind_step; [exact E1|].
    eapply bind_step; [exact E2|].
    eapply bind_step; [exact E3|].
    eapply bind_step; [exact E4|].
    eapply bind_step; [exact E5|].
    eapply bind_step; [reflexivity|].
    eapply bind_step; [exact E6|].
    eapply bind_step; [apply runDiagnostics_run|].
    rewrite createResponse_run, R, F, D. reflexivity.
  - rewrite !agentCalls_app, A1, A2, A3, A4, A5, A6, R, F, D. reflexivity.
  - rewrite !openedPaths_app, O1, O2, O3, O4, O5, O6. reflexivity.
Qed.

(** ** The concurrent orchestration *)

Section ParallelFacts.

Variable w : World.
Variable d : ResourceData.
Variable resources : list TfResource.
Variables docs files : string.

Let text := taskText w d resources docs files.
Let call := taskCall d resources docs files.
Let step := parStep w d resources docs files.

Lemma goroutineCall_run (g : Goroutine) :
  goroutineCall w d resources docs files g = (Some (text g), [call g]).
Proof. destruct g; reflexivity. Qed.

Lemma sendAll_run (completion : list Goroutine) (ch : list string) :
  sendAll w d resources docs files completion ch
  = (Some (ch ++ map text completion), map call completion).
Proof.
  revert ch. induction completion as [|g completion IH]; intros ch.
  - simpl. now rewrite app_nil_r.
  - cbn [sendAll]. rewrite goroutineCall_run. unfold bind. rewrite IH.
    simpl. now rewrite <- app_assoc.
Qed.

Lemma drain_all (ch : list string) : drain ch = ch.
Proof.
  unfold drain.
  assert (G : forall acc,
    fold_left (fun answers r => answers ++ [r]) ch acc = acc ++ ch).
  { induction ch as [|r ch IH]; intros acc; simpl.
    - now rewrite app_nil_r.
    - rewrite IH. now rewrite <- app_assoc. }
  apply (G []).
Qed.

Lemma runDiagnosticsParallel_run (completion : list Goroutine) :
  runDiagnosticsParallel w d resources docs files completion
  = (Some (strings_Join (map text completion) nl), map call completion).
Proof.
  unfold runDiagnosticsParallel. rewrite sendAll_run. unfold bind, ret.
  simpl. now rewrite drain_all, app_nil_r.
Qed.

(** Whatever run lets every goroutine send has put on the channel the
    texts of the goroutines still calling and the values still held, in
    some order. *)
Lemma parStep_sends_a_permutation (s s' : ParState) :
  rtc step s s' ->
  calling s' = [] ->
  holding s' = [] ->
  exists texts,
    map text (calling s) ++ holding s ≡ₚ texts
    /\ results s' = results s ++ texts.
Proof.
  intros Hrun.
  induction Hrun as [s|s y s' Hstep Hrun IH]; intros Hcalled Hsent.
  - exists []. rewrite Hcalled, Hsent. simpl. rewrite app_nil_r.
    split; reflexivity.
  - destruct (IH Hcalled Hsent) as (texts & Hperm & Hres).
    destruct Hstep as [before g after held ch ev t tr Hcall
                      |rest before t after ch ev]; simpl in *.
    + rewrite goroutineCall_run in Hcall. injection Hcall as <- <-.
      exists texts. split; [|exact Hres].
      rewrite <- Hperm, !map_app. simpl.
      rewrite <- !app_assoc. apply Permutation_app_head.
      rewrite app_assoc.
      rewrite <- (Permutation_cons_append (map text after ++ held) (text g)).
      reflexivity.
    + exists (t :: texts). split.
      * rewrite <- Hperm. rewrite app_assoc.
        rewrite <- Permutation_middle. now rewrite <- app_assoc.
      * rewrite Hres, <- app_assoc. reflexivity.
Qed.

(** And every order of the goroutines still calling is the order of the
    sends of some run. *)
Lemma parStep_reaches_every_permutation (order : list Goroutine) :
  forall s,
    calling s ≡ₚ order ->
    holding s = [] ->
    exists ev,
      rtc step s {| calling := []; holding := [];
                    results := results s ++ map text order;
                    events := ev |}.
Proof.
  induction order as [|g order IH]; intros [run held ch ev] Hperm Hheld;
    simpl in *; subst held.
  - apply Permutation_nil_r in Hperm. subst run.
    exists ev. rewrite app_nil_r. apply rtc_refl.
  - assert (Hin : g ∈ run) by (rewrite Hperm; left).
    apply list_elem_of_split in Hin as (before & after & ->).
    rewrite <- Permutation_middle in Hperm.
    apply Permutation_cons_inv in Hperm.
    destruct (IH {| calling := before ++ after; holding := [];
                    results := ch ++ [text g];
                    events := ev ++ [call g] |} Hperm eq_refl)
      as (ev' & Hrun).
    simpl in Hrun. rewrite <- app_assoc in Hrun.
    exists ev'. eapply rtc_l; [|eapply rtc_l; [|exact Hrun]].
    + apply (ParCall w d resources docs files before g after [] ch ev).
      apply goroutineCall_run.
    + apply (ParSend w d resources docs files (before ++ after)
               [] (text g) [] ch (ev ++ [call g])).
Qed.

Lemma runDiagnosticsParallelReturns_iff (s : string) :
  runDiagnosticsParallelReturns w d resources docs files s
  <-> exists order,
        goroutines ≡ₚ order /\ s = strings_Join (map text order) nl.
Proof.
  split.
  - intros [final Hrun Hcalled Hsent].
    destruct (parStep_sends_a_permutation _ _ Hrun Hcalled Hsent)
      as (texts & Hperm & Hres).
    cbn [parStart calling holding results] in Hperm, Hres.
    rewrite app_nil_r in Hperm. symmetry in Hperm.
    apply Permutation_map_inv in Hperm as (order & -> & Hperm).
    exists order. split; [exact Hperm|].
    rewrite drain_all, Hres. reflexivity.
  - intros (order & Hperm & ->).
    destruct (parStep_reaches_every_permutation order parStart Hperm eq_refl)
      as (ev & Hrun).
    simpl in Hrun.
    replace (map text order)
      with (drain (results {| calling := []; holding := [];
                              results := map text order;
                              events := ev |}))
      by apply drain_all.
    apply ParReturn; [exact Hrun | reflexivity | reflexivity].
Qed.

End ParallelFacts.

(** C1, as the code has it.  The concurrent function returns exactly the
    strings that join the four texts by a line feed in an order in which
    the goroutines may send them, and every permutation of the four is
    such an order; the declaration order is the one that arises when the
    goroutines happen to send in it.  The sequential function returns a
    line feed and then the text for each of the three tasks it calls. *)
Theorem runDiagnosticsParallel_joins_in_completion_order
    (w : World) (d : ResourceData) (resources : list TfResource)
    (docs files : string) :
  (forall s : string,
     runDiagnosticsParallelReturns w d resources docs files s
     <-> exists order : list Goroutine,
           goroutines ≡ₚ order
           /\ s = strings_Join
                    (map (taskText w d resources docs files) order) nl)
  /\ (forall completion : list Goroutine,
        result (runDiagnosticsParallel w d resources docs files completion)
        = Some (strings_Join
                  (map (taskText w d resources docs files) completion) nl))
  /\ result (runDiagnosticsParallel w d resources docs files goroutines)
     = Some (taskText w d resources docs files GoMissingResources
             +:+ nl
             +:+ taskText w d resources docs files GoGeneralTFBestPractices
             +:+ nl
             +:+ taskText w d resources docs files GoResourceReplaceSuggestions
             +:+ nl
             +:+ taskText w d resources docs files GoNewFeaturesSuggestions)
  /\ result (runDiagnostics w d resources docs files)
     = Some (nl
             +:+ taskText w d resources docs files GoMissingResources
             +:+ nl
             +:+ taskText w d resources docs files GoGeneralTFBestPractices
             +:+ nl
             +:+ taskText w d resources docs files GoNewFeaturesSuggestions).
Proof.
  split; [|split; [|split]].
  - apply runDiagnosticsParallelReturns_iff.
  - intros completion. now rewrite runDiagnosticsParallel_run.
  - now rewrite runDiagnosticsParallel_run.
  - now rewrite runDiagnostics_run.
Qed.

(** C1, as the claim has it, fails: with four distinct texts the
    goroutines may send in the reverse of the declaration order, and the
    string then returned is neither what the sequential function returns
    nor the join in declaration order. *)
Lemma parallel_is_sequential_counterexample :
  ~ (forall s : string,
       runDiagnosticsParallelReturns
         Sample.fine (Sample.config "proj/") [] "" "" s ->
       result (runDiagnostics Sample.fine (Sample.config "proj/") [] "" "")
       = Some s
       /\ s = strings_Join
                (map (taskText Sample.fine (Sample.config "proj/") [] "" "")
                     goroutines) nl).
Proof.
  intros H.
  destruct (H (strings_Join
                 (map (taskText Sample.fine (Sample.config "proj/") [] "" "")
                      (rev goroutines)) nl)) as [_ Hjoin].
  - apply runDiagnosticsParallelReturns_iff. exists (rev goroutines).
    split; [apply Permutation_rev | reflexivity].
  - vm_compute in Hjoin. discriminate Hjoin.
Qed.

(** ** What a cycle dispatches *)

Lemma replaceSuggestions_not_dispatched
    (d : ResourceData) (resources : list TfResource) (docs files : string) :
  ~ In (taskCall d resources docs files GoResourceReplaceSuggestions)
       [taskCall d resources docs files GoMissingResources;
        taskCall d resources docs files GoGeneralTFBestPractices;
        taskCall d resources docs files GoNewFeaturesSuggestions].
Proof.
  assert (R : exists rest,
    replaceSuggestionsFormat = String (ascii_of_nat 10) rest)
    by (eexists; reflexivity).
  assert (B : exists rest, bestPracticesFormat = String "Y" rest)
    by (eexists; reflexivity).
  assert (N : exists rest, newFeaturesFormat = String "Y" rest)
    by (eexists; reflexivity).
  destruct R as [r R], B as [b B], N as [n N].
  unfold taskCall. rewrite R, B, N.
  rewrite !fmt_Sprintf_head by reflexivity.
  intros [H|[H|[H|[]]]]; discriminate H.
Qed.

(** C2, as the code has it.  A cycle that gets its working directory
    calls the agent three times, in this order: the inventory diff, the
    general best practices and the new-feature adoption; the request of
    the deprecated-resource replacement is not among them.  The report is
    a line feed and then the text, for each of the three. *)
Theorem cycle_dispatches_three_tasks
    (w : World) (d : ResourceData) (cwd : string) :
  cwdResult w = Ok cwd ->
  let resources := collectedResources w d in
  let docs := collectedDocs w in
  let files := collectedFiles w d in
  agentCalls (trace (getLLMSuggestions w d))
  = [taskCall d resources docs files GoMissingResources;
     taskCall d resources docs files GoGeneralTFBestPractices;
     taskCall d resources docs files GoNewFeaturesSuggestions]
  /\ ~ In (taskCall d resources docs files GoResourceReplaceSuggestions)
          (agentCalls (trace (getLLMSuggestions w d)))
  /\ result (getLLMSuggestions w d)
     = Some [suggestion
               (nl
                +:+ taskText w d resources docs files GoMissingResources
                +:+ nl
                +:+ taskText w d resources docs files GoGeneralTFBestPractices
                +:+ nl
                +:+ taskText w d resources docs files GoNewFeaturesSuggestions)].
Proof.
  intros Hcwd resources docs files.
  destruct (getLLMSuggestions_run w d cwd Hcwd) as (tr & E & Hcalls & _).
  fold resources docs files in E, Hcalls.
  rewrite E. unfold trace, result. simpl fst. simpl snd.
  split; [exact Hcalls|]. split; [|reflexivity].
  rewrite Hcalls. apply replaceSuggestions_not_dispatched.
Qed.

Lemma cycle_dispatches_three_tasks_witness :
  cwdResult Sample.fine = Ok "/work"
  /\ length (agentCalls
               (trace (getLLMSuggestions Sample.fine (Sample.config "proj/"))))
     = 3
  /\ result (getLLMSuggestions Sample.fine (Sample.config "proj/"))
     = Some [suggestion
               (nl +:+ "MISSING" +:+ nl +:+ "PRACTICES" +:+ nl +:+ "FEATURES")].
Proof.
  split; [reflexivity|].
  destruct (cycle_dispatches_three_tasks Sample.fine (Sample.config "proj/")
              "/work" eq_refl) as (Hcalls & _ & Hres).
  split.
  - rewrite Hcalls. reflexivity.
  - rewrite Hres. vm_compute. reflexivity.
Defined.

(** C2, as the claim has it, fails: in a cycle where everything works the
    request of the deprecated-resource replacement task is never made. *)
Lemma cycle_dispatches_four_tasks_counterexample :
  ~ (forall g : Goroutine,
       In g goroutines ->
       In (taskCall (Sample.config "proj/")
             (collectedResources Sample.fine (Sample.config "proj/"))
             (collectedDocs Sample.fine)
             (collectedFiles Sample.fine (Sample.config "proj/")) g)
          (trace (getLLMSuggestions Sample.fine (Sample.config "proj/")))).
Proof.
  intros H.
  specialize (H GoResourceReplaceSuggestions).
  assert (Hin : In GoResourceReplaceSuggestions goroutines)
    by (right; right; left; reflexivity).
  specialize (H Hin). vm_compute in H.
  repeat (destruct H as [H|H]; [discriminate H|]).
  exact H.
Qed.

(** ** Failures *)

(** C5.  A cycle ends the process exactly when the working directory
    cannot be determined, and then before anything else happens: the trace
    is the fatal log line alone, with no agent call.  Otherwise the cycle
    returns its diagnostic whatever errors the agent calls return beside
    their texts: each of the three tasks contributes the text of its own
    reply, empty or not, and the error beside it is not looked at. *)
Theorem task_failures_are_not_fatal (w : World) (d : ResourceData) :
  let resources := collectedResources w d in
  let docs := collectedDocs w in
  let files := collectedFiles w d in
  match cwdResult w with
  | Ok cwd =>
      result (getLLMSuggestions w d)
      = Some [suggestion
                (nl
                 +:+ fst (toolAgentReply w
                            (missingResourcesInstructions
                             +:+ fmtTfResources resources)
                            (api_id d) (api_key d))
                 +:+ nl
                 +:+ fst (agentReply w
                            (fmt_Sprintf bestPracticesFormat [files]))
                 +:+ nl
                 +:+ fst (agentReply w
                            (fmt_Sprintf newFeaturesFormat
                               [docs; getNewFeatures; files])))]
  | Err e =>
      getLLMSuggestions w d
      = (None,
         [EvLogFatalf "Failed to get current working directory: %v" [AErr e]])
  end
  /\ (result (getLLMSuggestions w d) = None
      <-> exists e, cwdResult w = Err e)
  /\ (result (getLLMSuggestions w d) = None
      -> agentCalls (trace (getLLMSuggestions w d)) = []).
Proof.
  intros resources docs files.
  destruct (cwdResult w) as [cwd|e] eqn:Hcwd.
  - destruct (getLLMSuggestions_run w d cwd Hcwd) as (tr & E & _).
    rewrite E. unfold result. simpl fst.
    split; [reflexivity|]. split.
    + split; [discriminate | intros [e He]; discriminate He].
    + discriminate.
  - rewrite (getLLMSuggestions_exit w d e Hcwd).
    split; [reflexivity|]. split.
    + split; [eauto | reflexivity].
    + reflexivity.
Qed.

Lemma task_failures_are_not_fatal_witness :
  snd (agentReply Sample.flaky
         (fmt_Sprintf bestPracticesFormat
            [collectedFiles Sample.flaky (Sample.config "proj/")]))
  = Some "503 Service Unavailable"
  /\ result (getLLMSuggestions Sample.flaky (Sample.config "proj/"))
     = Some [suggestion (nl +:+ "MISSING" +:+ nl +:+ "" +:+ nl +:+ "FEATURES")]
  /\ result (getLLMSuggestions Sample.lost (Sample.config "proj/")) = None
  /\ agentCalls (trace (getLLMSuggestions Sample.lost (Sample.config "proj/")))
     = [].
Proof.
  split; [vm_compute; reflexivity|].
  destruct (task_failures_are_not_fatal Sample.flaky (Sample.config "proj/"))
    as (Hok & _ & _).
  destruct (task_failures_are_not_fatal Sample.lost (Sample.config "proj/"))
    as (_ & Hiff & Hnone).
  split; [|split].
  - simpl in Hok. rewrite Hok. vm_compute. reflexivity.
  - apply Hiff. eexists. reflexivity.
  - apply Hnone, Hiff. eexists. reflexivity.
Defined.

(** ** The inventory diff task *)


(** The request of the other copy does not depend on the inventory. *)
Lemma OtherCopy_request_without_inventory
    (w : World) (d : ResourceData) (resources resources' : list TfResource) :
  OtherCopy.getMissingResources w d resources
  = OtherCopy.getMissingResources w d resources'.
Proof. reflexivity. Qed.

(** ** The rendered report *)

Lemma createHtmlReport_run (w : World) (d : ResourceData)
    (finalAnswer : string) :
  result (createHtmlReport w d finalAnswer)
  = Some [suggestion
            (getAiAnswer
               match writeResult w (htmlPath w d) (htmlDocument w finalAnswer)
               with
               | Some _ => "Failed to save HTML file"
               | None => "file://" +:+ htmlPath w d
               end)].
Proof.
  unfold createHtmlReport, getHtmlContent, saveHtmlToFile, queryAgent,
    ioutil_WriteFile, os_Getwd, filepath_Join, htmlPath, htmlDocument.
  unfold bind, emit, ret, log_Printf, result.
  destruct (String.eqb (execution_dir d) ""); simpl;
    match goal with
    | |- context [writeResult w ?p ?c] => destruct (writeResult w p c)
    end; reflexivity.
Qed.

(** C8, as the code has it.  The detail of the diagnostic
    [createHtmlReport] returns is always the banner followed by what
    [saveHtmlToFile] returned: the fixed words [Failed to save HTML file]
    when the document could not be written, the link to the document
    otherwise.  The text that was to be rendered is in neither. *)
Theorem createHtmlReport_detail (w : World) (d : ResourceData)
    (finalAnswer : string) :
  result (createHtmlReport w d finalAnswer)
  = Some [{| DSeverity := SevWarning;
             Summary := "Best Practice Suggestion";
             Detail :=
               aiAnswerBanner
               +:+ match writeResult w (htmlPath w d)
                           (htmlDocument w finalAnswer)
                   with
                   | Some _ => "Failed to save HTML file"
                   | None => "file://" +:+ htmlPath w d
                   end |}].
Proof. apply createHtmlReport_run. Qed.

(** C8, as the claim has it, fails: where the document cannot be written
    the diagnostic does not hold the text that was to be rendered. *)
Lemma createHtmlReport_fallback_counterexample :
  writeResult Sample.readOnly
    (htmlPath Sample.readOnly (Sample.config "proj"))
    (htmlDocument Sample.readOnly "RAW ADVICE")
  = Some "permission denied"
  /\ ~ (exists diag : Diagnostic,
          result (createHtmlReport Sample.readOnly (Sample.config "proj")
                    "RAW ADVICE") = Some [diag]
          /\ strings_Contains (Detail diag) "RAW ADVICE" = true).
Proof.
  split; [reflexivity|].
  intros (diag & Hres & Hin).
  rewrite createHtmlReport_run in Hres. injection Hres as <-.
  vm_compute in Hin. discriminate Hin.
Qed.

(** ** The path of the state snapshot *)


Lemma trimSeparator_split (dir : string) :
  endsInSeparator dir = true ->
  dir = trimSeparator dir +:+ String PathSeparator EmptyString.
Proof.
  induction dir as [|c dir IH]; [discriminate|].
  destruct dir as [|c' dir'].
  - simpl. intros H. rewrite H. apply Ascii.eqb_eq in H. now subst c.
  - intros H.
    change (String c (String c' dir')
            = String c (trimSeparator (String c' dir')
                        +:+ String PathSeparator EmptyString)).
    f_equal. apply IH. exact H.
Qed.

(** A directory written with its separator does hold the file. *)
Lemma statePath_inside_when_separated (dir : string) :
  endsInSeparator dir = true ->
  namesEntryOf dir (dir +:+ "terraform.tfstate").
Proof.
  intros H. exists "terraform.tfstate".
  rewrite (trimSeparator_split dir H) at 1. now rewrite append_assoc.
Qed.



(** * Further properties of the code *)

(** ** The documentation tree *)

Lemma walkedFiles_cons (c : WalkEntry) (calls : list WalkEntry) :
  walkedFiles (c :: calls)
  = if walkIsDir c then walkedFiles calls else walkPath c :: walkedFiles calls.
Proof.
  unfold walkedFiles. destruct (walkIsDir c) eqn:E.
  - rewrite filter_cons_False by (rewrite E; discriminate). reflexivity.
  - rewrite filter_cons_True by exact E. reflexivity.
Qed.

Lemma readableContents_cons_ok (w : World) (file src : string)
    (files : list string) :
  readResult w file = Ok src ->
  readableContents w (file :: files) = src :: readableContents w files.
Proof. intros H. unfold readableContents. now rewrite omap_cons, H. Qed.

Lemma walkWebsiteFiles_passes (w : World) (calls : list WalkEntry)
    (builder : string) :
  Forall (entryPasses w) calls ->
  walkWebsiteFiles w calls builder
  = (Some (builder +:+ concatAll (readableContents w (walkedFiles calls)), None),
     map EvReadFile (walkedFiles calls)).
Proof.
  intros H. revert builder.
  induction H as [|c calls [Herr Hread] _ IH]; intros builder.
  - simpl. now rewrite append_nil_r.
  - cbn [walkWebsiteFiles]. rewrite Herr, walkedFiles_cons.
    destruct (walkIsDir c); [apply IH|].
    destruct (Hread eq_refl) as [src Hsrc].
    rewrite (readableContents_cons_ok w _ src _ Hsrc).
    unfold ioutil_ReadFile, bind, emit, ret. simpl.
    rewrite Hsrc, IH. cbn [concatAll]. now rewrite append_assoc.
Qed.

Lemma walkWebsiteFiles_fails (w : World) (passed : list WalkEntry)
    (c : WalkEntry) (rest : list WalkEntry) (e : error) (builder : string) :
  Forall (entryPasses w) passed ->
  entryFailsWith w c e ->
  walkWebsiteFiles w (passed ++ c :: rest) builder
  = (Some ("", Some e), map EvReadFile (walkedFiles passed ++ failedRead c)).
Proof.
  intros H Hc. revert builder.
  induction H as [|p passed [Herr Hread] _ IH]; intros builder.
  - cbn [app walkWebsiteFiles]. unfold failedRead.
    destruct Hc as [Hc|(Hc & Hfile & Hc')]; rewrite Hc; [reflexivity|].
    rewrite Hfile. unfold ioutil_ReadFile, bind, emit, ret. simpl.
    now rewrite Hc'.
  - cbn [app walkWebsiteFiles]. rewrite Herr, walkedFiles_cons.
    destruct (walkIsDir p); [apply IH|].
    destruct (Hread eq_refl) as [src Hsrc].
    unfold ioutil_ReadFile, bind, emit, ret. simpl.
    now rewrite Hsrc, IH.
Qed.

(** X1.  When [WalkDir] reports no error and every file it reaches can be
    read, [readAndConcatWebsiteFiles] returns the contents of the files, in
    walk order and with nothing between them, and no error; directories
    contribute nothing, and each file is read once. *)
Theorem readAndConcatWebsiteFiles_concat (w : World) (root : string) :
  Forall (entryPasses w) (walkCalls w root) ->
  readAndConcatWebsiteFiles w root
  = (Some (concatAll (readableContents w (walkedFiles (walkCalls w root))),
           None),
     EvWalkDir root :: map EvReadFile (walkedFiles (walkCalls w root)))
  /\ length (readableContents w (walkedFiles (walkCalls w root)))
     = length (walkedFiles (walkCalls w root)).
Proof.
  intros H. split.
  - unfold readAndConcatWebsiteFiles, filepath_WalkDir.
    unfold bind at 1, emit, ret. simpl.
    rewrite (walkWebsiteFiles_passes w _ "" H). reflexivity.
  - induction H as [|c calls [_ Hread] _ IH]; [reflexivity|].
    rewrite walkedFiles_cons. destruct (walkIsDir c); [exact IH|].
    destruct (Hread eq_refl) as [src Hsrc].
    rewrite (readableContents_cons_ok w _ src _ Hsrc). simpl.
    now rewrite IH.
Qed.

Lemma readAndConcatWebsiteFiles_concat_witness :
  Forall (entryPasses Sample.fine) (walkCalls Sample.fine "website")
  /\ result (readAndConcatWebsiteFiles Sample.fine "website")
     = Some ("DOCS", None).
Proof.
  assert (H : Forall (entryPasses Sample.fine) (walkCalls Sample.fine "website")).
  { repeat constructor; try discriminate. intros _. eexists. reflexivity. }
  split; [exact H|].
  destruct (readAndConcatWebsiteFiles_concat Sample.fine "website" H) as [-> _].
  reflexivity.
Defined.

Lemma readAndConcatWebsiteFiles_fails
    (w : World) (root : string) (passed : list WalkEntry) (c : WalkEntry)
    (rest : list WalkEntry) (e : error) :
  walkCalls w root = passed ++ c :: rest ->
  Forall (entryPasses w) passed ->
  entryFailsWith w c e ->
  readAndConcatWebsiteFiles w root
  = (Some ("", Some e),
     EvWalkDir root :: map EvReadFile (walkedFiles passed ++ failedRead c)).
Proof.
  intros Hcalls Hpassed Hc.
  unfold readAndConcatWebsiteFiles, filepath_WalkDir.
  unfold bind at 1, emit, ret. simpl. rewrite Hcalls.
  rewrite (walkWebsiteFiles_fails w passed c rest e "" Hpassed Hc).
  reflexivity.
Qed.

(** X2.  At the first entry for which [WalkDir] reports an error, or
    whose file cannot be read, [readAndConcatWebsiteFiles] stops: it
    returns that error with the empty string, dropping what it had read,
    and reads no file after that entry. *)
Theorem readAndConcatWebsiteFiles_first_error
    (w : World) (root : string) (passed : list WalkEntry) (c : WalkEntry)
    (rest : list WalkEntry) (e : error) :
  walkCalls w root = passed ++ c :: rest ->
  Forall (entryPasses w) passed ->
  entryFailsWith w c e ->
  readAndConcatWebsiteFiles w root
  = (Some ("", Some e),
     EvWalkDir root :: map EvReadFile (walkedFiles passed ++ failedRead c)).
Proof.
  intros Hcalls Hpassed Hc.
  now apply (readAndConcatWebsiteFiles_fails w root passed c rest e).
Qed.

Lemma Sample2_locked_entry :
  walkCalls Sample2.lockedDocs "website"
  = [ {| walkPath := "website"; walkIsDir := true; walkErr := None |};
      {| walkPath := "website/docs/site.md";
         walkIsDir := false; walkErr := None |} ]
    ++ {| walkPath := "website/docs/locked.md";
          walkIsDir := false; walkErr := None |}
    :: [ {| walkPath := "website/docs/rule.md";
            walkIsDir := false; walkErr := None |} ]
  /\ Forall (entryPasses Sample2.lockedDocs)
       [ {| walkPath := "website"; walkIsDir := true; walkErr := None |};
         {| walkPath := "website/docs/site.md";
            walkIsDir := false; walkErr := None |} ]
  /\ entryFailsWith Sample2.lockedDocs
       {| walkPath := "website/docs/locked.md";
          walkIsDir := false; walkErr := None |}
       "open website/docs/locked.md: permission denied".
Proof.
  split; [reflexivity|]. split.
  - repeat constructor; try discriminate. intros _. eexists. reflexivity.
  - right. repeat split.
Qed.

Lemma readAndConcatWebsiteFiles_first_error_witness :
  readAndConcatWebsiteFiles Sample2.lockedDocs "website"
  = (Some ("", Some "open website/docs/locked.md: permission denied"),
     [EvWalkDir "website"; EvReadFile "website/docs/site.md";
      EvReadFile "website/docs/locked.md"]).
Proof.
  destruct Sample2_locked_entry as (Hcalls & Hpassed & Hc).
  rewrite (readAndConcatWebsiteFiles_first_error _ _ _ _ _ _
             Hcalls Hpassed Hc).
  reflexivity.
Defined.

(** X3.  A cycle does not look at the error of
    [readAndConcatWebsiteFiles]: when the walk of [website] fails at some
    entry the cycle goes on with the empty documentation text.  It still
    returns its one diagnostic, and the request of the new-features task
    carries no documentation at all, whatever had been read before the
    failure. *)
Theorem cycle_drops_documentation_on_error
    (w : World) (d : ResourceData) (cwd : string)
    (passed : list WalkEntry) (c : WalkEntry) (rest : list WalkEntry)
    (e : error) :
  cwdResult w = Ok cwd ->
  walkCalls w "website" = passed ++ c :: rest ->
  Forall (entryPasses w) passed ->
  entryFailsWith w c e ->
  collectedDocs w = ""
  /\ result (getLLMSuggestions w d)
     = Some [suggestion
               (sequentialReport w d (collectedResources w d) ""
                  (collectedFiles w d))]
  /\ last (agentCalls (trace (getLLMSuggestions w d)))
     = Some (EvQueryAgent
               (fmt_Sprintf newFeaturesFormat
                  [""; getNewFeatures; collectedFiles w d])).
Proof.
  intros Hcwd Hcalls Hpassed Hc.
  assert (Hdocs : collectedDocs w = "").
  { unfold collectedDocs.
    now rewrite (readAndConcatWebsiteFiles_fails _ _ _ _ _ _
                   Hcalls Hpassed Hc). }
  destruct (getLLMSuggestions_run w d cwd Hcwd) as (tr & E & Hagent & _).
  rewrite Hdocs in E, Hagent. rewrite E.
  split; [exact Hdocs|]. split; [reflexivity|].
  unfold trace. simpl snd. rewrite Hagent. reflexivity.
Qed.

Lemma cycle_drops_documentation_on_error_witness :
  collectedDocs Sample2.lockedDocs = ""
  /\ result (getLLMSuggestions Sample2.lockedDocs (Sample.config "proj/"))
     = Some [suggestion
               (nl +:+ "MISSING" +:+ nl +:+ "PRACTICES" +:+ nl +:+ "FEATURES")].
Proof.
  destruct Sample2_locked_entry as (Hcalls & Hpassed & Hc).
  destruct (cycle_drops_documentation_on_error Sample2.lockedDocs
              (Sample.config "proj/") "/work" _ _ _ _
              eq_refl Hcalls Hpassed Hc) as (Hdocs & Hres & _).
  split; [exact Hdocs|]. rewrite Hres. vm_compute. reflexivity.
Defined.

(** ** The two readers of the state snapshot *)

Lemma attributesLoop_all (state : StateJSON.t) :
  attributesLoop state = allAttributes state.
Proof.
  unfold attributesLoop, allAttributes.
  assert (Inner : forall instances acc,
    fold_left (fun resources instance =>
                 resources ++ [StateJSON.Attributes instance]) instances acc
    = acc ++ map StateJSON.Attributes instances).
  { induction instances as [|i instances IH]; intros acc; simpl.
    - now rewrite app_nil_r.
    - rewrite IH, <- app_assoc. reflexivity. }
  assert (Outer : forall rs acc,
    fold_left
      (fun resources resource =>
         fold_left (fun resources instance =>
                      resources ++ [StateJSON.Attributes instance])
                   (StateJSON.Instances resource) resources) rs acc
    = acc ++ flat_map
        (fun resource =>
           map StateJSON.Attributes (StateJSON.Instances resource)) rs).
  { induction rs as [|r rs IH]; intros acc; simpl.
    - now rewrite app_nil_r.
    - rewrite IH, Inner, <- app_assoc. reflexivity. }
  apply (Outer _ []).
Qed.

Lemma filter_length_all {A} (P : A -> Prop) `{forall x, Decision (P x)}
    (l : list A) :
  length (filter P l) = length l <-> Forall P l.
Proof.
  induction l as [|x l IH].
  - split; [constructor | reflexivity].
  - destruct (decide (P x)) as [Hx|Hx].
    + rewrite filter_cons_True by exact Hx. simpl. split.
      * intros Hlen. constructor; [exact Hx|]. apply IH. lia.
      * intros Hall. inversion Hall; subst. f_equal. now apply IH.
    + rewrite filter_cons_False by exact Hx. simpl.
      pose proof (length_filter P l) as Hle. split.
      * intros Hlen. lia.
      * intros Hall. inversion Hall; subst. contradiction.
Qed.

Lemma countStringIds_le (state : StateJSON.t) :
  countStringIds state <= length (allAttributes state)
  /\ (countStringIds state = length (allAttributes state)
      <-> everyInstanceHasStringId state).
Proof.
  unfold countStringIds, allAttributes, everyInstanceHasStringId.
  induction (StateJSON.Resources state) as [|r rs [IHle IHeq]].
  - simpl. split; [lia|]. split; [|reflexivity].
    intros _ resource instance Hin. inversion Hin.
  - simpl. rewrite length_app, length_map.
    pose proof (length_filter (fun i => is_Some (stringId i))
                  (StateJSON.Instances r)) as Hr.
    split; [lia|]. split.
    + intros Heq resource instance Hres Hinst.
      apply elem_of_cons in Hres as [->|Hres].
      * assert (Hall : Forall (fun i => is_Some (stringId i))
                         (StateJSON.Instances r))
          by (apply (proj1 (filter_length_all _ _)); lia).
        rewrite Forall_forall in Hall. now apply Hall.
      * apply (proj1 IHeq ltac:(lia) resource instance Hres Hinst).
    + intros Hall.
      assert (Hhead : length (filter (fun i => is_Some (stringId i))
                                     (StateJSON.Instances r))
                      = length (StateJSON.Instances r)).
      { apply (proj2 (filter_length_all _ _)), Forall_forall. intros i Hi.
        apply (Hall r i); [left | exact Hi]. }
      assert (Htail := proj2 IHeq
                (fun resource instance Hres Hi =>
                   Hall resource instance
                        (proj2 (elem_of_cons rs resource r) (or_intror Hres))
                        Hi)).
      lia.
Qed.

(** X4.  On a state file that opens and decodes,
    [getAllResourcesFromState] returns the attribute map of every
    instance, in snapshot order, whether it has an [id] or not.
    [getAllResourcesTypeAndId] never returns more records than that, and
    returns as many exactly when every instance has a string [id]. *)
Theorem state_readers_agree
    (w : World) (statePath bytes : string) (state : StateJSON.t) :
  openResult w statePath = Ok bytes ->
  decodeResult w bytes = Ok state ->
  exists attrs records,
    result (getAllResourcesFromState w statePath) = Some attrs
    /\ result (getAllResourcesTypeAndId w statePath) = Some records
    /\ attrs
       = flat_map (fun resource =>
                     map StateJSON.Attributes (StateJSON.Instances resource))
                  (StateJSON.Resources state)
    /\ length records <= length attrs
    /\ (length records = length attrs <-> everyInstanceHasStringId state).
Proof.
  intros Hopen Hdecode.
  exists (allAttributes state), (declaredResources state).
  rewrite getAllResourcesFromState_run, getAllResourcesTypeAndId_run,
    Hopen, Hdecode.
  unfold result. simpl fst.
  rewrite attributesLoop_all, typeAndIdLoop_declared, declaredResources_length.
  split; [reflexivity|]. split; [reflexivity|]. split; [reflexivity|].
  apply countStringIds_le.
Qed.

Lemma state_readers_agree_witness :
  exists attrs records,
    result (getAllResourcesFromState Sample.fine "proj/terraform.tfstate")
    = Some attrs
    /\ result (getAllResourcesTypeAndId Sample.fine "proj/terraform.tfstate")
       = Some records
    /\ length attrs = 4 /\ length records = 1.
Proof.
  destruct (state_readers_agree Sample.fine "proj/terraform.tfstate" "STATE"
              Sample.state eq_refl eq_refl)
    as (attrs & records & Ha & Hr & Hattrs & _).
  exists attrs, records. split; [exact Ha|]. split; [exact Hr|].
  split.
  - rewrite Hattrs. reflexivity.
  - rewrite getAllResourcesTypeAndId_run in Hr. simpl in Hr.
    injection Hr as <-. reflexivity.
Defined.

(** X5.  When the state file cannot be opened, or cannot be decoded, a
    cycle still runs its three tasks, and the request of the inventory
    diff ends with the empty inventory, printed [[]]. *)
Theorem cycle_with_unreadable_state
    (w : World) (d : ResourceData) (cwd : string) :
  cwdResult w = Ok cwd ->
  (forall bytes,
     openResult w (execution_dir d +:+ "terraform.tfstate") = Ok bytes ->
     exists e, decodeResult w bytes = Err e) ->
  collectedResources w d = []
  /\ head (agentCalls (trace (getLLMSuggestions w d)))
     = Some (EvAnswerWithTools (missingResourcesInstructions +:+ "[]")
               (api_id d) (api_key d))
  /\ length (agentCalls (trace (getLLMSuggestions w d))) = 3
  /\ is_Some (result (getLLMSuggestions w d)).
Proof.
  intros Hcwd Hstate.
  assert (Hres : collectedResources w d = []).
  { unfold collectedResources. rewrite getAllResourcesTypeAndId_run.
    destruct (openResult w (execution_dir d +:+ "terraform.tfstate"))
      as [bytes|e]; [|reflexivity].
    destruct (Hstate bytes eq_refl) as [e He]. now rewrite He. }
  destruct (getLLMSuggestions_run w d cwd Hcwd) as (tr & E & Hagent & _).
  rewrite Hres in Hagent. rewrite E. unfold trace, result. simpl.
  rewrite Hagent. split; [exact Hres|]. split; [reflexivity|].
  split; [reflexivity | eauto].
Qed.

Lemma cycle_with_unreadable_state_witness :
  collectedResources Sample.fine (Sample.config "broken/") = []
  /\ collectedResources Sample.fine (Sample.config "nowhere/") = []
  /\ length (agentCalls
               (trace (getLLMSuggestions Sample.fine (Sample.config "broken/"))))
     = 3.
Proof.
  assert (Hb : forall bytes,
    openResult Sample.fine
      (execution_dir (Sample.config "broken/") +:+ "terraform.tfstate")
    = Ok bytes -> exists e, decodeResult Sample.fine bytes = Err e).
  { intros bytes H. vm_compute in H. injection H as <-.
    eexists. reflexivity. }
  assert (Hn : forall bytes,
    openResult Sample.fine
      (execution_dir (Sample.config "nowhere/") +:+ "terraform.tfstate")
    = Ok bytes -> exists e, decodeResult Sample.fine bytes = Err e).
  { intros bytes H. vm_compute in H. discriminate H. }
  destruct (cycle_with_unreadable_state Sample.fine (Sample.config "broken/")
              "/work" eq_refl Hb) as (H1 & _ & H3 & _).
  destruct (cycle_with_unreadable_state Sample.fine (Sample.config "nowhere/")
              "/work" eq_refl Hn) as (H2 & _).
  split; [exact H1|]. split; [exact H2 | exact H3].
Defined.

(** ** Braces *)




Lemma length_append (a b : string) :
  String.length (a +:+ b) = String.length a + String.length b.
Proof.
  induction a as [|c a IH]; [reflexivity|].
  rewrite append_cons. simpl. now rewrite IH.
Qed.



(** ** Operands of the format strings *)

Lemma fmt_Sprintf_literal (pre rest : string) (args : list string) :
  noVerb pre = true ->
  fmt_Sprintf (pre +:+ rest) args = pre +:+ fmt_Sprintf rest args.
Proof.
  induction pre as [|c pre IH]; [reflexivity|].
  cbn [noVerb]. intros [Hc Hpre]%andb_true_iff.
  rewrite !append_cons, fmt_Sprintf_head, IH; [reflexivity|exact Hpre|].
  now apply negb_true_iff.
Qed.

Lemma fmt_Sprintf_operand (rest a : string) (args : list string) :
  fmt_Sprintf ("%s" +:+ rest) (a :: args) = a +:+ fmt_Sprintf rest args.
Proof. reflexivity. Qed.

Lemma fmt_Sprintf_last (pre a : string) :
  noVerb pre = true ->
  fmt_Sprintf (pre +:+ "%s") [a] = pre +:+ a.
Proof.
  intros H. rewrite (fmt_Sprintf_literal pre "%s" [a] H).
  change (fmt_Sprintf "%s" [a]) with (a +:+ ""). now rewrite append_nil_r.
Qed.

Lemma bestPracticesFormat_split :
  bestPracticesFormat = bestPracticesInstructions +:+ "%s"
  /\ noVerb bestPracticesInstructions = true.
Proof. split; vm_compute; reflexivity. Qed.

Lemma replaceSuggestionsFormat_split :
  replaceSuggestionsFormat = replaceSuggestionsInstructions +:+ "%s"
  /\ noVerb replaceSuggestionsInstructions = true.
Proof. split; vm_compute; reflexivity. Qed.

Lemma htmlContentFormat_split :
  htmlContentFormat = htmlContentInstructions +:+ "%s"
  /\ noVerb htmlContentInstructions = true.
Proof. split; vm_compute; reflexivity. Qed.

Lemma newFeaturesFormat_split :
  newFeaturesFormat
  = newFeaturesInstructions +:+ "%s"
    +:+ (nl +:+ nl +:+ "The new features are: ") +:+ "%s"
    +:+ (nl +:+ nl +:+ "The current Terraform code is as follows: ") +:+ "%s"
    +:+ (nl +:+ nl)
  /\ noVerb newFeaturesInstructions = true.
Proof. split; vm_compute; reflexivity. Qed.

(** X7.  The three requests built from a format string with one [%s]
    are the fixed instructions followed by the operand exactly as it is,
    whatever it holds, a [%s] of its own included: the general best
    practices and the replacement suggestions end with the configuration
    text (the latter does not use the documentation it is given), the
    rendering request with the text after [escapeBraces]. *)
Theorem single_operand_requests
    (w : World) (d : ResourceData) (resources docs finalAnswer : string) :
  trace (getGeneralTFBestPractices w resources)
  = [EvQueryAgent (bestPracticesInstructions +:+ resources)]
  /\ trace (getImpervaResourceReplaceSuggestions w d resources docs)
     = [EvQueryAgent (replaceSuggestionsInstructions +:+ resources)]
  /\ trace (getHtmlContent w d finalAnswer)
     = [EvQueryAgent (htmlContentInstructions +:+ finalAnswer)]
  /\ trace (createHtmlReport w d finalAnswer) !! 0
     = Some (EvQueryAgent
               (htmlContentInstructions +:+ escapeBraces finalAnswer)).
Proof.
  destruct bestPracticesFormat_split as [Eb Hb].
  destruct replaceSuggestionsFormat_split as [Er Hr].
  destruct htmlContentFormat_split as [Eh Hh].
  assert (Q : forall a,
    fmt_Sprintf htmlContentFormat [a] = htmlContentInstructions +:+ a).
  { intros a. rewrite Eh at 1. now apply fmt_Sprintf_last. }
  split; [|split; [|split]].
  - unfold getGeneralTFBestPractices, queryAgent, bind, emit, ret, trace.
    simpl. rewrite Eb at 1. now rewrite fmt_Sprintf_last.
  - unfold getImpervaResourceReplaceSuggestions, queryAgent, bind, emit, ret,
      trace.
    simpl. rewrite Er at 1. now rewrite fmt_Sprintf_last.
  - unfold getHtmlContent, queryAgent, bind, emit, ret, trace.
    simpl. now rewrite Q.
  - unfold createHtmlReport, getHtmlContent, queryAgent.
    unfold bind at 1 2 3, emit, ret, trace. simpl.
    rewrite Q.
    match goal with
    | |- context [bind ?m ?k] => destruct (bind m k)
    end.
    reflexivity.
Qed.

(** X8.  The request of the new-features task is the fixed instructions,
    then the documentation, the feature list and the configuration text,
    each under its heading and each exactly as it is; the feature list is
    always the one feature [getNewFeatures] names. *)
Theorem newFeatures_request
    (w : World) (d : ResourceData) (resources docs : string) :
  getImpervaNewFeaturesSuggestions w d resources docs
  = (Some (fst (agentReply w
                  (fmt_Sprintf newFeaturesFormat
                     [docs; getNewFeatures; resources]))),
     [EvQueryAgent (fmt_Sprintf newFeaturesFormat
                      [docs; getNewFeatures; resources])])
  /\ fmt_Sprintf newFeaturesFormat [docs; getNewFeatures; resources]
     = newFeaturesInstructions
       +:+ docs
       +:+ (nl +:+ nl +:+ "The new features are: ")
       +:+ "site level managed certificate"
       +:+ (nl +:+ nl +:+ "The current Terraform code is as follows: ")
       +:+ resources
       +:+ (nl +:+ nl).
Proof.
  split; [reflexivity|].
  destruct newFeaturesFormat_split as [E H]. rewrite E at 1.
  rewrite (fmt_Sprintf_literal _ _ _ H), fmt_Sprintf_operand.
  rewrite (fmt_Sprintf_literal (nl +:+ nl +:+ "The new features are: "))
    by reflexivity.
  rewrite fmt_Sprintf_operand.
  rewrite (fmt_Sprintf_literal
             (nl +:+ nl +:+ "The current Terraform code is as follows: "))
    by reflexivity.
  rewrite fmt_Sprintf_operand.
  reflexivity.
Qed.

(** ** The rendered report, step by step *)

(** X9.  [createHtmlReport] never ends the process, not even when the
    working directory is unknown.  It asks the agent once, for a document
    made from the text with its braces doubled; it writes the reply, as it
    is, to [llm_suggestion.html] under the execution directory (under the
    working directory when none is configured); it logs a write that
    fails; and it prints the reply, not the text.  The link of the
    diagnostic is to the path it wrote. *)
Theorem createHtmlReport_events
    (w : World) (d : ResourceData) (finalAnswer : string) :
  let document :=
    fst (agentReply w
           (htmlContentInstructions +:+ escapeBraces finalAnswer)) in
  let path :=
    joinPath w
      (if String.eqb (execution_dir d) ""
       then match cwdResult w with Ok cwd => cwd | Err _ => "" end
       else execution_dir d)
      "llm_suggestion.html" in
  createHtmlReport w d finalAnswer
  = match writeResult w path document with
    | None =>
        (Some [suggestion (aiAnswerBanner +:+ "file://" +:+ path)],
         [EvQueryAgent (htmlContentInstructions +:+ escapeBraces finalAnswer);
          EvWriteFile path document;
          EvPrint document])
    | Some e =>
        (Some [suggestion (aiAnswerBanner +:+ "Failed to save HTML file")],
         [EvQueryAgent (htmlContentInstructions +:+ escapeBraces finalAnswer);
          EvWriteFile path document;
          EvLogPrintf "Failed to write HTML file: %v" [AErr e];
          EvPrint document])
    end.
Proof.
  intros document path.
  destruct htmlContentFormat_split as [Eh Hh].
  assert (Q : fmt_Sprintf htmlContentFormat [escapeBraces finalAnswer]
              = htmlContentInstructions +:+ escapeBraces finalAnswer).
  { rewrite Eh at 1. now apply fmt_Sprintf_last. }
  unfold createHtmlReport, getHtmlContent, saveHtmlToFile, queryAgent,
    ioutil_WriteFile, os_Getwd, filepath_Join, getAiAnswer.
  rewrite Q. subst document path.
  unfold bind, emit, ret, log_Printf, print.
  destruct (String.eqb (execution_dir d) ""); simpl;
    [destruct (cwdResult w); simpl|];
    match goal with
    | |- context [writeResult w ?p ?c] => destruct (writeResult w p c)
    end; reflexivity.
Qed.

(** ** Invariants of the concurrent orchestration *)

Section ParallelInvariants.

Variable w : World.
Variable d : ResourceData.
Variable resources : list TfResource.
Variables docs files : string.

#[local] Abbreviation call := (taskCall d resources docs files).
#[local] Abbreviation step := (parStep w d resources docs files).
#[local] Abbreviation start := parStart.

Lemma parStep_conserves (s s' : ParState) :
  step s s' ->
  length (calling s') + length (holding s') + length (results s')
  = length (calling s) + length (holding s) + length (results s).
Proof.
  intros [before g after held ch ev t tr _|rest before t after ch ev];
    simpl; rewrite !length_app; simpl; lia.
Qed.

(** X10.  In every state the function can reach, the goroutines still
    calling, the values held and the values on the channel are four in
    all.  So the channel, made for four values, always has room for a
    value that is held: no send ever waits. *)
Theorem results_within_capacity (s : ParState) :
  rtc step start s ->
  length (calling s) + length (holding s) + length (results s) = 4
  /\ length (results s) <= 4
  /\ (holding s <> [] -> length (results s) < 4).
Proof.
  intros Hrun.
  assert (H : length (calling s) + length (holding s) + length (results s)
              = 4).
  { revert s Hrun.
    apply (rtc_ind_r
             (fun s => length (calling s) + length (holding s)
                       + length (results s) = 4)).
    - reflexivity.
    - intros y z _ Hstep IH. rewrite (parStep_conserves _ _ Hstep).
      exact IH. }
  split; [exact H|]. split; [lia|].
  intros Hheld. destruct (holding s); [contradiction|simpl in H; lia].
Qed.

(** X11.  The function cannot get stuck and cannot run for ever: as
    long as a goroutine is calling or holds a value some step is possible,
    and every step brings the end nearer, which is at most eight steps
    away at the start. *)
Theorem parStep_progress (s : ParState) :
  ((calling s <> [] \/ holding s <> []) -> exists s', step s s')
  /\ (forall s', step s s' -> stepsLeft s' < stepsLeft s)
  /\ stepsLeft start = 8.
Proof.
  split; [|split].
  - destruct s as [[|g run] [|t held] ch ev]; simpl.
    + intros [H|H]; contradiction.
    + intros _. eexists.
      apply (ParSend w d resources docs files [] [] t held ch ev).
    + intros _. eexists.
      apply (ParCall w d resources docs files [] g run [] ch ev).
      apply goroutineCall_run.
    + intros _. eexists.
      apply (ParSend w d resources docs files (g :: run) [] t held ch ev).
  - intros s' [before g after held ch ev t tr _|rest before t after ch ev];
      unfold stepsLeft; simpl; rewrite !length_app; simpl; lia.
  - reflexivity.
Qed.

Lemma parStep_events (s s' : ParState) :
  rtc step s s' ->
  exists called,
    calling s ≡ₚ called ++ calling s'
    /\ events s' = events s ++ map call called.
Proof.
  intros Hrun. induction Hrun as [s|s y s' Hstep _ IH].
  - exists []. simpl. now rewrite app_nil_r.
  - destruct IH as (called & Hperm & Hev).
    destruct Hstep as [before g after held ch ev t tr Hcall
                      |rest before t after ch ev]; simpl in *.
    + rewrite goroutineCall_run in Hcall. injection Hcall as <- <-.
      exists (g :: called). split.
      * rewrite <- Permutation_middle. simpl. now rewrite Hperm.
      * rewrite Hev, <- app_assoc. reflexivity.
    + exists called. split; assumption.
Qed.

(** X12.  When the function returns, each of the four tasks has made its
    agent call exactly once: the events of a complete run are the four
    calls, in the order in which the calls happened to return. *)
Theorem parallel_calls_each_task_once (s : ParState) :
  rtc step start s ->
  calling s = [] ->
  events s ≡ₚ map call goroutines
  /\ length (agentCalls (events s)) = 4.
Proof.
  intros Hrun Hdone.
  destruct (parStep_events _ _ Hrun) as (called & Hperm & Hev).
  rewrite Hdone, app_nil_r in Hperm. simpl in Hev.
  assert (E : events s ≡ₚ map call goroutines).
  { rewrite Hev. now apply Permutation_map. }
  split; [exact E|].
  unfold agentCalls. rewrite E. reflexivity.
Qed.

End ParallelInvariants.

Lemma results_within_capacity_witness :
  exists s,
    rtc (parStep Sample.fine (Sample.config "proj/") [] "" "") parStart s
    /\ length (results s) = 4.
Proof.
  destruct (parStep_reaches_every_permutation Sample.fine
              (Sample.config "proj/") [] "" "" goroutines parStart
              (Permutation_refl _) eq_refl) as [ev Hrun].
  eexists. split; [exact Hrun|].
  destruct (results_within_capacity Sample.fine (Sample.config "proj/")
              [] "" "" _ Hrun) as (Hsum & _).
  simpl in Hsum. exact Hsum.
Defined.

Lemma parStep_progress_witness :
  exists s', parStep Sample.fine (Sample.config "proj/") [] "" "" parStart s'.
Proof.
  apply (parStep_progress Sample.fine (Sample.config "proj/") [] "" ""
           parStart).
  left. discriminate.
Defined.

Lemma parallel_calls_each_task_once_witness :
  exists s,
    rtc (parStep Sample.fine (Sample.config "proj/") [] "" "") parStart s
    /\ calling s = []
    /\ length (agentCalls (events s)) = 4.
Proof.
  destruct (parStep_reaches_every_permutation Sample.fine
              (Sample.config "proj/") [] "" "" goroutines parStart
              (Permutation_refl _) eq_refl) as [ev Hrun].
  eexists. split; [exact Hrun|]. split; [reflexivity|].
  apply (parallel_calls_each_task_once Sample.fine (Sample.config "proj/")
           [] "" "" _ Hrun eq_refl).
Defined.

(** ** The events of a cycle *)

Lemma forRange_log_run {A} (l : list A) (format : A -> string)
    (args : A -> list LogArg) :
  forRange l (fun x => log_Printf (format x) (args x))
  = (Some tt, map (fun x => EvLogPrintf (format x) (args x)) l).
Proof.
  induction l as [|x l IH]; [reflexivity|].
  cbn [forRange]. unfold bind. rewrite IH. reflexivity.
Qed.

Lemma run_of_result {A} (m : IO A) (a : A) :
  result m = Some a -> m = (Some a, trace m).
Proof. destruct m as [r tr]. simpl. now intros ->. Qed.

Lemma getLLMSuggestions_trace
    (w : World) (d : ResourceData) (cwd : string) :
  cwdResult w = Ok cwd ->
  let statePath := execution_dir d +:+ "terraform.tfstate" in
  let resources := collectedResources w d in
  let docs := collectedDocs w in
  let files := collectedFiles w d in
  exists attrs,
    result (getAllResourcesFromState w statePath) = Some attrs
    /\ trace (getLLMSuggestions w d)
       = [EvLogPrintf cwd []]
         ++ trace (getAllResourcesFromState w statePath)
         ++ map (fun res => EvLogPrintf ("Resource: %s" +:+ nl) [AAttrs res])
                attrs
         ++ trace (getAllResourcesTypeAndId w statePath)
         ++ map (fun res =>
                   EvLogPrintf ("Resource Type: %s, ID: %s" +:+ nl)
                               [AStr (Type_ res); AStr (Id res)])
                resources
         ++ trace (getAllResourcesFromTfFiles w (execution_dir d))
         ++ [EvLogPrintf ("Resource from file: %s" +:+ nl) [AStr files]]
         ++ trace (readAndConcatWebsiteFiles w "website")
         ++ [taskCall d resources docs files GoMissingResources;
             taskCall d resources docs files GoGeneralTFBestPractices;
             taskCall d resources docs files GoNewFeaturesSuggestions]
         ++ [EvPrint (sequentialReport w d resources docs files)].
Proof.
  intros Hcwd p resources docs files.
  destruct (getAllResourcesFromState_total w p) as (v1 & t1 & E1 & _).
  destruct (getAllResourcesTypeAndId_total w p) as (v3 & t3 & E3 & _).
  destruct (getAllResourcesFromTfFiles_total w (execution_dir d))
    as (v5 & t5 & E5 & _).
  destruct (readAndConcatWebsiteFiles_total w "website")
    as (v6 & t6 & E6 & _).
  assert (R : resources = v3).
  { unfold resources, collectedResources. fold p. now rewrite E3. }
  assert (F : files = fst v5).
  { unfold files, collectedFiles. now rewrite E5. }
  assert (D : docs = fst v6).
  { unfold docs, collectedDocs. now rewrite E6. }
  exists v1. rewrite E1, E3, E5, E6, R, F, D. split; [reflexivity|].
  unfold trace at 2 3 4 5. simpl snd.
  assert (G : exists r,
    getLLMSuggestions w d
    = (r, [] ++ [] ++ [EvLogPrintf cwd []] ++ t1
          ++ map (fun res => EvLogPrintf ("Resource: %s" +:+ nl) [AAttrs res])
                 v1
          ++ t3
          ++ map (fun res =>
                    EvLogPrintf ("Resource Type: %s, ID: %s" +:+ nl)
                                [AStr (Type_ res); AStr (Id res)]) v3
          ++ t5
          ++ [EvLogPrintf ("Resource from file: %s" +:+ nl) [AStr (fst v5)]]
          ++ t6
          ++ [taskCall d v3 (fst v6) (fst v5) GoMissingResources;
              taskCall d v3 (fst v6) (fst v5) GoGeneralTFBestPractices;
              taskCall d v3 (fst v6) (fst v5) GoNewFeaturesSuggestions]
          ++ [EvPrint (sequentialReport w d v3 (fst v6) (fst v5))])).
  { eexists. unfold getLLMSuggestions, os_Getwd. rewrite Hcwd. fold p.
    eapply bind_step; [reflexivity|].
    eapply bind_step; [reflexivity|].
    eapply bind_step; [reflexivity|].
    eapply bind_step; [exact E1|].
    eapply bind_step;
      [apply (forRange_log_run v1 (fun _ => "Resource: %s" +:+ nl)
                (fun res => [AAttrs res]))|].
    eapply bind_step; [exact E3|].
    eapply bind_step;
      [apply (forRange_log_run v3
                (fun _ => "Resource Type: %s, ID: %s" +:+ nl)
                (fun res => [AStr (Type_ res); AStr (Id res)]))|].
    eapply bind_step; [exact E5|].
    eapply bind_step; [reflexivity|].
    eapply bind_step; [exact E6|].
    eapply bind_step; [apply runDiagnostics_run|].
    rewrite createResponse_run. reflexivity. }
  destruct G as [r G]. rewrite G. reflexivity.
Qed.

(** X13.  The events of a cycle that gets its working directory, in
    order: the working directory is logged; the state file is read and
    each instance logged; the state file is read again and each record
    logged; the configuration files are read and their text logged; the
    documentation tree is read; the three agent calls are made; the
    report is printed.  Nothing is asked of the agent before everything
    has been collected. *)
Theorem getLLMSuggestions_events
    (w : World) (d : ResourceData) (cwd : string) :
  cwdResult w = Ok cwd ->
  let statePath := execution_dir d +:+ "terraform.tfstate" in
  let resources := collectedResources w d in
  let docs := collectedDocs w in
  let files := collectedFiles w d in
  exists attrs,
    result (getAllResourcesFromState w statePath) = Some attrs
    /\ trace (getLLMSuggestions w d)
       = [EvLogPrintf cwd []]
         ++ trace (getAllResourcesFromState w statePath)
         ++ map (fun res => EvLogPrintf ("Resource: %s" +:+ nl) [AAttrs res])
                attrs
         ++ trace (getAllResourcesTypeAndId w statePath)
         ++ map (fun res =>
                   EvLogPrintf ("Resource Type: %s, ID: %s" +:+ nl)
                               [AStr (Type_ res); AStr (Id res)])
                resources
         ++ trace (getAllResourcesFromTfFiles w (execution_dir d))
         ++ [EvLogPrintf ("Resource from file: %s" +:+ nl) [AStr files]]
         ++ trace (readAndConcatWebsiteFiles w "website")
         ++ [taskCall d resources docs files GoMissingResources;
             taskCall d resources docs files GoGeneralTFBestPractices;
             taskCall d resources docs files GoNewFeaturesSuggestions]
         ++ [EvPrint (sequentialReport w d resources docs files)].
Proof.
  intros Hcwd. now apply (getLLMSuggestions_trace w d cwd).
Qed.

Lemma getLLMSuggestions_events_witness :
  trace (getLLMSuggestions Sample.fine (Sample.config "nowhere/"))
  = [EvLogPrintf "/work" [];
     EvOpen "nowhere/terraform.tfstate";
     EvLogPrintf "[Error] Unable to open state file: %v"
       [AErr "open nowhere/terraform.tfstate: no such file or directory"];
     EvOpen "nowhere/terraform.tfstate";
     EvLogPrintf "[Error] Unable to open state file: %v"
       [AErr "open nowhere/terraform.tfstate: no such file or directory"];
     EvGlob "nowhere/*.tf";
     EvLogPrintf ("Resource from file: %s" +:+ nl) [AStr ""];
     EvWalkDir "website";
     EvReadFile "website/docs/site.md";
     taskCall (Sample.config "nowhere/") [] "DOCS" "" GoMissingResources;
     taskCall (Sample.config "nowhere/") [] "DOCS" "" GoGeneralTFBestPractices;
     taskCall (Sample.config "nowhere/") [] "DOCS" "" GoNewFeaturesSuggestions;
     EvPrint (nl +:+ "MISSING" +:+ nl +:+ "PRACTICES" +:+ nl +:+ "FEATURES")].
Proof.
  destruct (getLLMSuggestions_events Sample.fine (Sample.config "nowhere/")
              "/work" eq_refl) as (attrs & Hattrs & Htrace).
  rewrite Htrace. vm_compute in Hattrs. injection Hattrs as <-.
  vm_compute. reflexivity.
Defined.

Lemma no_write_app (tr1 tr2 : list Event) :
  filter (fun e => isWrite e || isFatal e) (tr1 ++ tr2)
  = filter (fun e => isWrite e || isFatal e) tr1
    ++ filter (fun e => isWrite e || isFatal e) tr2.
Proof. apply filter_app. Qed.

Lemma no_write_logs {A} (l : list A) (f : A -> string)
    (g : A -> list LogArg) :
  filter (fun e => isWrite e || isFatal e)
         (map (fun x => EvLogPrintf (f x) (g x)) l) = [].
Proof. induction l as [|x l IH]; [reflexivity | exact IH]. Qed.

Lemma no_write_reads (files : list string) :
  filter (fun e => isWrite e || isFatal e) (map EvReadFile files) = [].
Proof. induction files as [|f files IH]; [reflexivity | exact IH]. Qed.

Lemma no_write_closeTrace (w : World) (path : string) :
  filter (fun e => isWrite e || isFatal e) (closeTrace w path) = [].
Proof. unfold closeTrace. destruct (closeResult w path); reflexivity. Qed.

(** X14.  A cycle that gets its working directory changes nothing on
    disk and never ends the process: none of its events is a file write
    or a fatal log line.  Its last event is the print of the report. *)
Theorem cycle_only_reads (w : World) (d : ResourceData) (cwd : string) :
  cwdResult w = Ok cwd ->
  filter (fun e => isWrite e || isFatal e) (trace (getLLMSuggestions w d))
  = []
  /\ last (trace (getLLMSuggestions w d))
     = Some (EvPrint (sequentialReport w d (collectedResources w d)
                        (collectedDocs w) (collectedFiles w d))).
Proof.
  intros Hcwd.
  destruct (getLLMSuggestions_trace w d cwd Hcwd) as (attrs & _ & ->).
  split.
  - rewrite !no_write_app, !no_write_logs.
    rewrite getAllResourcesFromState_run, getAllResourcesTypeAndId_run,
      getAllResourcesFromTfFiles_run.
    unfold readAndConcatWebsiteFiles, filepath_WalkDir.
    destruct (walkWebsiteFiles_total w (walkCalls w "website") "")
      as (v & read & E).
    unfold bind at 1, emit, ret. simpl. rewrite E.
    destruct (openResult w (execution_dir d +:+ "terraform.tfstate"))
      as [bytes|e];
      [destruct (decodeResult w bytes)|];
      destruct (globResult w (joinPath w (execution_dir d) "*.tf"));
      unfold trace; simpl;
      rewrite ?filter_cons_False, ?no_write_closeTrace, ?no_write_reads
        by (simpl; auto);
      try reflexivity.
  - rewrite !app_assoc. apply last_snoc.
Qed.

(** ** The inventory in the request *)

Lemma split_at_first (c : ascii) (a a' x x' : string) :
  freeOf c a = true -> freeOf c a' = true ->
  a +:+ String c x = a' +:+ String c x' ->
  a = a' /\ x = x'.
Proof.
  revert a'. induction a as [|y a IH]; intros [|y' a'] Ha Ha' H.
  - injection H as ->. split; reflexivity.
  - rewrite append_nil_l, append_cons in H. injection H as <- _.
    cbn [freeOf] in Ha'. rewrite Ascii.eqb_refl in Ha'. discriminate Ha'.
  - rewrite append_nil_l, append_cons in H. injection H as -> _.
    cbn [freeOf] in Ha. rewrite Ascii.eqb_refl in Ha. discriminate Ha.
  - rewrite !append_cons in H. injection H as <- H.
    cbn [freeOf] in Ha, Ha'.
    apply andb_true_iff in Ha as [_ Ha], Ha' as [_ Ha'].
    destruct (IH a' Ha Ha' H) as [-> ->]. split; reflexivity.
Qed.

Lemma strings_Join_cons (e : string) (rest : list string) (sep : string) :
  strings_Join (e :: rest) sep
  = e +:+ match rest with
          | [] => ""
          | _ => sep +:+ strings_Join rest sep
          end.
Proof. destruct rest; [now rewrite append_nil_r | reflexivity]. Qed.

Lemma fmtTfResource_cons (r : TfResource) (rest : list TfResource)
    (closing : string) :
  strings_Join (map fmtTfResource (r :: rest)) " " +:+ closing
  = "{" +:+ Type_ r +:+ " " +:+ Id r +:+ "}"
    +:+ match rest with
        | [] => closing
        | _ => " " +:+ strings_Join (map fmtTfResource rest) " " +:+ closing
        end.
Proof.
  cbn [map]. rewrite strings_Join_cons. unfold fmtTfResource at 1.
  rewrite !append_assoc. do 4 f_equal.
  destruct rest; [reflexivity|]. cbn [map]. now rewrite !append_assoc.
Qed.

Lemma fmtTfResources_elements_inj (rs rs' : list TfResource) :
  Forall plainRecord rs -> Forall plainRecord rs' ->
  strings_Join (map fmtTfResource rs) " " +:+ "]"
  = strings_Join (map fmtTfResource rs') " " +:+ "]" ->
  rs = rs'.
Proof.
  intros Hrs. revert rs'.
  induction Hrs as [|r rs [Ht Hi] _ IH]; intros rs' Hrs' H.
  - destruct Hrs' as [|r' rs' _ _]; [reflexivity|].
    rewrite fmtTfResource_cons in H. discriminate H.
  - destruct Hrs' as [|r' rs' [Ht' Hi'] Hrs'].
    + rewrite fmtTfResource_cons in H. discriminate H.
    + rewrite !fmtTfResource_cons in H.
      rewrite !(append_cons "{") in H. injection H as H.
      rewrite !append_nil_l in H.
      apply (split_at_first " " _ _ _ _ Ht Ht') in H as [HT H].
      apply (split_at_first "}" _ _ _ _ Hi Hi') in H as [HI H].
      assert (rs = rs').
      { destruct rs as [|r1 rs1], rs' as [|r1' rs1'].
        - reflexivity.
        - discriminate H.
        - discriminate H.
        - apply (IH (r1' :: rs1') Hrs'). now injection H. }
      subst rs'. destruct r, r'; simpl in *. now subst.
Qed.

(** X15.  The inventory can be read back from the request when no type
    holds a space and no id holds a closing brace: two such inventories
    that are printed the same are the same, so [getMissingResources]
    sends them different requests unless they are equal. *)
Theorem fmtTfResources_injective (rs rs' : list TfResource) :
  Forall plainRecord rs -> Forall plainRecord rs' ->
  fmtTfResources rs = fmtTfResources rs' ->
  rs = rs'.
Proof.
  intros Hrs Hrs' H. unfold fmtTfResources in H.
  rewrite !(append_cons "[") in H. injection H as H.
  rewrite !append_nil_l in H.
  now apply fmtTfResources_elements_inj.
Qed.

Lemma fmtTfResources_injective_witness :
  Forall plainRecord [{| Type_ := "incapsula_site"; Id := "42" |}]
  /\ Forall plainRecord [{| Type_ := "incapsula_site"; Id := "43" |}]
  /\ fmtTfResources [{| Type_ := "incapsula_site"; Id := "42" |}]
     <> fmtTfResources [{| Type_ := "incapsula_site"; Id := "43" |}].
Proof.
  assert (H1 : Forall plainRecord [{| Type_ := "incapsula_site"; Id := "42" |}])
    by (repeat constructor).
  assert (H2 : Forall plainRecord [{| Type_ := "incapsula_site"; Id := "43" |}])
    by (repeat constructor).
  split; [exact H1|]. split; [exact H2|].
  intros H. apply (fmtTfResources_injective _ _ H1 H2) in H.
  discriminate H.
Defined.

(** X16.  Without that the printing loses the inventory: a space moved
    from the end of a type to the start of an id is not seen, and two
    records are printed as the one record whose id spells out the
    second.  [getMissingResources] then makes the same call for both. *)
Theorem fmtTfResources_ambiguous
    (w : World) (d : ResourceData) (t x i : string)
    (r1 r2 : TfResource) (rest : list TfResource) :
  getMissingResources w d [{| Type_ := t +:+ " " +:+ x; Id := i |}]
  = getMissingResources w d [{| Type_ := t; Id := x +:+ " " +:+ i |}]
  /\ getMissingResources w d (r1 :: r2 :: rest)
     = getMissingResources w d
         ({| Type_ := Type_ r1;
             Id := Id r1 +:+ "} {" +:+ Type_ r2 +:+ " " +:+ Id r2 |} :: rest).
Proof.
  assert (A : fmtTfResources [{| Type_ := t +:+ " " +:+ x; Id := i |}]
              = fmtTfResources [{| Type_ := t; Id := x +:+ " " +:+ i |}]).
  { unfold fmtTfResources, fmtTfResource. simpl.
    now rewrite !append_assoc. }
  assert (B : fmtTfResources (r1 :: r2 :: rest)
              = fmtTfResources
                  ({| Type_ := Type_ r1;
                      Id := Id r1 +:+ "} {" +:+ Type_ r2 +:+ " " +:+ Id r2 |}
                   :: rest)).
  { unfold fmtTfResources. f_equal.
    rewrite (fmtTfResource_cons r1), (fmtTfResource_cons r2),
      (fmtTfResource_cons _ rest). simpl.
    rewrite !append_assoc. reflexivity. }
  unfold getMissingResources. rewrite A, B. split; reflexivity.
Qed.

(** ** Configuring the provider *)

(** X17.  [ConfigureContextFunc] runs the advisory cycle first and
    builds the client after it.  When the working directory is unknown the
    process ends in the cycle and no client is built.  Otherwise it
    returns whatever client [config.Client()] gave, nil included, and
    exactly the one warning of the cycle: the error of building the client
    is dropped, and the Terraform version makes no difference. *)
Theorem ConfigureContextFunc_drops_client_error
    (Client : Type) (configClient : Config -> option Client * option error)
    (w : World) (version : string) (d : ProviderData) :
  match cwdResult w with
  | Err e =>
      ConfigureContextFunc Client configClient w version d
      = (None,
         [EvLogFatalf "Failed to get current working directory: %v" [AErr e]])
  | Ok _ =>
      result (ConfigureContextFunc Client configClient w version d)
      = Some (fst (configClient
                     {| APIID := api_id (settings d);
                        APIKey := api_key (settings d);
                        ExecutionDir := execution_dir (settings d);
                        BaseURL := base_url d;
                        BaseURLRev2 := base_url_rev_2 d;
                        BaseURLRev3 := base_url_rev_3 d;
                        BaseURLAPI := base_url_api d |}),
              [suggestion
                 (sequentialReport w (settings d)
                    (collectedResources w (settings d)) (collectedDocs w)
                    (collectedFiles w (settings d)))])
      /\ trace (ConfigureContextFunc Client configClient w version d)
         = trace (getLLMSuggestions w (settings d))
  end.
Proof.
  unfold ConfigureContextFunc, providerConfigure.
  destruct (cwdResult w) as [cwd|e] eqn:Hcwd.
  - destruct (getLLMSuggestions_run w (settings d) cwd Hcwd)
      as (tr & E & _).
    rewrite E. unfold bind, ret, result, trace. simpl.
    now rewrite app_nil_r.
  - now rewrite (getLLMSuggestions_exit w (settings d) e Hcwd).
Qed.

Lemma ConfigureContextFunc_drops_client_error_witness :
  Sample3.client
    {| APIID := ""; APIKey := ""; ExecutionDir := "proj/";
       BaseURL := ""; BaseURLRev2 := ""; BaseURLRev3 := "";
       BaseURLAPI := "" |}
  = (None, Some "missing API credentials")
  /\ result (ConfigureContextFunc Config Sample3.client Sample.fine ""
               Sample3.anonymous)
     = Some (None,
             [suggestion
                (nl +:+ "MISSING" +:+ nl +:+ "PRACTICES" +:+ nl
                 +:+ "FEATURES")]).
Proof.
  split; [reflexivity|].
  pose proof (ConfigureContextFunc_drops_client_error Config Sample3.client
                Sample.fine "" Sample3.anonymous) as H.
  simpl in H. destruct H as [-> _]. vm_compute. reflexivity.
Defined.

(** ** The cycle of the other copy *)

Lemma saveHtmlToFile_total (w : World) (d : ResourceData) (content : string) :
  exists link tr, saveHtmlToFile w d content = (Some link, tr).
Proof.
  unfold saveHtmlToFile, ioutil_WriteFile, os_Getwd, filepath_Join.
  unfold bind, emit, ret, log_Printf.
  destruct (String.eqb (execution_dir d) ""); simpl;
    [destruct (cwdResult w); simpl|];
    match goal with
    | |- context [writeResult w ?p ?c] => destruct (writeResult w p c)
    end; do 2 eexists; reflexivity.
Qed.

(** X18.  In the other copy [runDiagnostics] calls all four tasks, in
    declaration order, with the release notes fetched between the third
    and the fourth call.  When they are fetched, the four texts are put
    end to end with nothing between them and, braces not doubled, sent to
    be rendered; the diagnostic holds the banner and the link (or the
    words of the failed write), and what is printed is the rendered
    document. *)
Theorem OtherCycle_runDiagnostics_renders
    (w : World) (harvest : IO string) (d : ResourceData)
    (resources : list TfResource) (files notes : string)
    (fetching : list Event) :
  harvest = (Some notes, fetching) ->
  let featuresQuestion :=
    "you are slim shady, whats your name? out put should be a string only."
    +:+ notes in
  let report :=
    OtherCycle.missingText w d
    +:+ OtherCycle.practicesText w files
    +:+ OtherCycle.replaceText w files
    +:+ fst (agentReply w featuresQuestion) in
  let document :=
    fst (agentReply w (fmt_Sprintf OtherCycle.htmlContentFormat [report])) in
  exists link,
    result (saveHtmlToFile w d document) = Some link
    /\ OtherCycle.runDiagnostics w harvest d resources files
       = (Some [suggestion (aiAnswerBanner +:+ link)],
          OtherCycle.firstCalls d files
          ++ fetching
          ++ [EvQueryAgent featuresQuestion;
              EvQueryAgent (fmt_Sprintf OtherCycle.htmlContentFormat [report])]
          ++ trace (saveHtmlToFile w d document)
          ++ [EvPrint document]).
Proof.
  intros Hnotes featuresQuestion report document.
  destruct (saveHtmlToFile_total w d document) as (link & tr & Esave).
  exists link. rewrite Esave. split; [reflexivity|].
  unfold trace. simpl snd.
  subst document report featuresQuestion.
  unfold OtherCycle.missingText, OtherCycle.practicesText,
    OtherCycle.replaceText in *.
  assert (G : exists r tr0,
    OtherCycle.runDiagnostics w harvest d resources files = (r, tr0)
    /\ r = Some [suggestion (aiAnswerBanner +:+ link)]
    /\ tr0 = OtherCycle.firstCalls d files
             ++ fetching
             ++ [EvQueryAgent
                   ("you are slim shady, whats your name? out put should be a string only."
                    +:+ notes);
                 EvQueryAgent
                   (fmt_Sprintf OtherCycle.htmlContentFormat
                      [fst (toolAgentReply w OtherCopy.missingResourcesQuestion
                              (api_id d) (api_key d))
                       +:+ fst (agentReply w
                                  (fmt_Sprintf OtherCycle.bestPracticesFormat
                                     [files]))
                       +:+ fst (agentReply w
                                  (fmt_Sprintf
                                     OtherCycle.replaceSuggestionsFormat
                                     [files]))
                       +:+ fst (agentReply w
                                  ("you are slim shady, whats your name? out put should be a string only."
                                   +:+ notes))])]
             ++ tr
             ++ [EvPrint
                   (fst (agentReply w
                      (fmt_Sprintf OtherCycle.htmlContentFormat
                      [fst (toolAgentReply w OtherCopy.missingResourcesQuestion
                              (api_id d) (api_key d))
                       +:+ fst (agentReply w
                                  (fmt_Sprintf OtherCycle.bestPracticesFormat
                                     [files]))
                       +:+ fst (agentReply w
                                  (fmt_Sprintf
                                     OtherCycle.replaceSuggestionsFormat
                                     [files]))
                       +:+ fst (agentReply w
                                  ("you are slim shady, whats your name? out put should be a string only."
                                   +:+ notes))])))]).
  { do 2 eexists. split.
    - unfold OtherCycle.runDiagnostics.
      eapply bind_step; [reflexivity|].
      eapply bind_step; [reflexivity|].
      eapply bind_step; [reflexivity|].
      eapply bind_step.
      { unfold OtherCycle.getImpervaNewFeaturesSuggestions. rewrite Hnotes.
        eapply bind_step; [reflexivity|]. reflexivity. }
      cbv beta. rewrite !append_assoc, append_nil_l.
      eapply bind_step; [reflexivity|].
      eapply bind_step; [exact Esave|].
      reflexivity.
    - split; [reflexivity|].
      simpl. rewrite <- !app_assoc. reflexivity. }
  destruct G as (r & tr0 & -> & -> & ->). reflexivity.
Qed.

Lemma OtherCycle_runDiagnostics_renders_witness :
  exists link,
    OtherCycle.runDiagnostics Sample.readOnly (Some "NOTES", [])
      (Sample.config "proj") [] ""
    = (Some [suggestion (aiAnswerBanner +:+ link)],
       OtherCycle.firstCalls (Sample.config "proj") ""
       ++ []
       ++ [EvQueryAgent
             ("you are slim shady, whats your name? out put should be a string only."
              +:+ "NOTES");
           EvQueryAgent
             (fmt_Sprintf OtherCycle.htmlContentFormat ["MISSINGPRACTICES"])]
       ++ trace (saveHtmlToFile Sample.readOnly (Sample.config "proj")
                   "<html>report</html>")
       ++ [EvPrint "<html>report</html>"])
    /\ link = "Failed to save HTML file".
Proof.
  destruct (OtherCycle_runDiagnostics_renders Sample.readOnly
              (Some "NOTES", []) (Sample.config "proj") [] "" "NOTES" []
              eq_refl) as (link & Hlink & Hrun).
  exists link. split.
  - rewrite Hrun. vm_compute. reflexivity.
  - vm_compute in Hlink. now injection Hlink.
Defined.

Lemma no_write_cons (e : Event) (tr : list Event) :
  isWrite e || isFatal e = false ->
  filter (fun e => isWrite e || isFatal e) (e :: tr)
  = filter (fun e => isWrite e || isFatal e) tr.
Proof. intros H. apply filter_cons_False. rewrite H. exact id. Qed.

Lemma agentCalls_logs {A} (l : list A) (f : A -> string)
    (g : A -> list LogArg) :
  agentCalls (map (fun x => EvLogPrintf (f x) (g x)) l) = [].
Proof. induction l as [|x l IH]; [reflexivity | exact IH]. Qed.

Lemma OtherCycle_runDiagnostics_exit
    (w : World) (harvest : IO string) (d : ResourceData)
    (resources : list TfResource) (files : string) (fetching : list Event) :
  harvest = (None, fetching) ->
  OtherCycle.runDiagnostics w harvest d resources files
  = (None, OtherCycle.firstCalls d files ++ fetching).
Proof.
  intros Hexit.
  assert (G : OtherCycle.runDiagnostics w harvest d resources files
              = (None,
                 [EvAnswerWithTools OtherCopy.missingResourcesQuestion
                    (api_id d) (api_key d)]
                 ++ [EvQueryAgent
                       (fmt_Sprintf OtherCycle.bestPracticesFormat [files])]
                 ++ [EvQueryAgent
                       (fmt_Sprintf OtherCycle.replaceSuggestionsFormat
                          [files])]
                 ++ fetching)).
  { unfold OtherCycle.runDiagnostics.
    eapply bind_step; [reflexivity|].
    eapply bind_step; [reflexivity|].
    eapply bind_step; [reflexivity|].
    apply bind_exit.
    unfold OtherCycle.getImpervaNewFeaturesSuggestions. rewrite Hexit.
    reflexivity. }
  exact G.
Qed.

(** X19.  In the other copy a task can end the process: when fetching
    the release notes ends it, the cycle has by then made the first three
    agent calls, and it returns no diagnostic, asks for no rendering and
    writes no document. *)
Theorem OtherCycle_exits_with_harvester
    (w : World) (harvest : IO string) (d : ResourceData) (cwd : string)
    (fetching : list Event) :
  cwdResult w = Ok cwd ->
  harvest = (None, fetching) ->
  exists collecting,
    OtherCycle.getLLMSuggestions w harvest d
    = (None,
       collecting
       ++ OtherCycle.firstCalls d (collectedFiles w d)
       ++ fetching)
    /\ agentCalls collecting = []
    /\ filter (fun e => isWrite e || isFatal e) collecting = [].
Proof.
  intros Hcwd Hexit.
  set (p := execution_dir d +:+ "terraform.tfstate").
  destruct (getAllResourcesFromState_total w p) as (v1 & t1 & E1 & A1 & _).
  destruct (getAllResourcesTypeAndId_total w p) as (v3 & t3 & E3 & A3 & _).
  destruct (getAllResourcesFromTfFiles_total w (execution_dir d))
    as (v5 & t5 & E5 & A5 & _).
  assert (F : collectedFiles w d = fst v5).
  { unfold collectedFiles. now rewrite E5. }
  assert (W1 : filter (fun e => isWrite e || isFatal e) t1 = []).
  { rewrite getAllResourcesFromState_run in E1.
    destruct (openResult w p) as [bytes|e];
      [destruct (decodeResult w bytes)|];
      injection E1 as _ <-;
      rewrite !no_write_cons by reflexivity;
      rewrite ?no_write_closeTrace; reflexivity. }
  assert (W3 : filter (fun e => isWrite e || isFatal e) t3 = []).
  { rewrite getAllResourcesTypeAndId_run in E3.
    destruct (openResult w p) as [bytes|e];
      [destruct (decodeResult w bytes)|];
      injection E3 as _ <-;
      rewrite !no_write_cons by reflexivity;
      rewrite ?no_write_closeTrace; reflexivity. }
  assert (W5 : filter (fun e => isWrite e || isFatal e) t5 = []).
  { rewrite getAllResourcesFromTfFiles_run in E5.
    destruct (globResult w (joinPath w (execution_dir d) "*.tf"));
      injection E5 as _ <-;
      rewrite !no_write_cons by reflexivity;
      rewrite ?no_write_reads; reflexivity. }
  exists ([EvLogPrintf cwd []] ++ t1
          ++ map (fun res => EvLogPrintf ("Resource: %s" +:+ nl) [AAttrs res])
                 v1
          ++ t3
          ++ map (fun res =>
                    EvLogPrintf ("Resource Type: %s, ID: %s" +:+ nl)
                                [AStr (Type_ res); AStr (Id res)]) v3
          ++ t5
          ++ [EvLogPrintf ("Resource from file: %s" +:+ nl) [AStr (fst v5)]]).
  split; [|split].
  - rewrite F, <- !app_assoc.
    change (OtherCycle.getLLMSuggestions w harvest d
            = (None,
               [] ++ [] ++ [EvLogPrintf cwd []] ++ t1
               ++ map (fun res =>
                         EvLogPrintf ("Resource: %s" +:+ nl) [AAttrs res]) v1
               ++ t3
               ++ map (fun res =>
                         EvLogPrintf ("Resource Type: %s, ID: %s" +:+ nl)
                                     [AStr (Type_ res); AStr (Id res)]) v3
               ++ t5
               ++ [EvLogPrintf ("Resource from file: %s" +:+ nl)
                     [AStr (fst v5)]]
               ++ OtherCycle.firstCalls d (fst v5) ++ fetching)).
    unfold OtherCycle.getLLMSuggestions, os_Getwd. rewrite Hcwd. fold p.
    eapply bind_step; [reflexivity|].
    eapply bind_step; [reflexivity|].
    eapply bind_step; [reflexivity|].
    eapply bind_step; [exact E1|].
    eapply bind_step;
      [apply (forRange_log_run v1 (fun _ => "Resource: %s" +:+ nl)
                (fun res => [AAttrs res]))|].
    eapply bind_step; [exact E3|].
    eapply bind_step;
      [apply (forRange_log_run v3
                (fun _ => "Resource Type: %s, ID: %s" +:+ nl)
                (fun res => [AStr (Type_ res); AStr (Id res)]))|].
    eapply bind_step; [exact E5|].
    eapply bind_step; [reflexivity|].
    now apply OtherCycle_runDiagnostics_exit.
  - rewrite !agentCalls_app, A1, A3, A5, !agentCalls_logs. reflexivity.
  - rewrite !no_write_app, W1, W3, W5, !no_write_logs. reflexivity.
Qed.

Lemma OtherCycle_exits_with_harvester_witness :
  result (OtherCycle.getLLMSuggestions Sample.fine
            (None, [EvLogFatalf "failed to load page or collect links: %v"
                      [AErr "context deadline exceeded"]])
            (Sample.config "proj/"))
  = None
  /\ length (agentCalls
               (trace (OtherCycle.getLLMSuggestions Sample.fine
                         (None,
                          [EvLogFatalf
                             "failed to load page or collect links: %v"
                             [AErr "context deadline exceeded"]])
                         (Sample.config "proj/"))))
     = 3.
Proof.
  destruct (OtherCycle_exits_with_harvester Sample.fine
              (None, [EvLogFatalf "failed to load page or collect links: %v"
                        [AErr "context deadline exceeded"]])
              (Sample.config "proj/") "/work" _ eq_refl eq_refl)
    as (collecting & E & Hcalls & _).
  rewrite E. split; [reflexivity|].
  unfold trace. simpl snd. rewrite !agentCalls_app, Hcalls. reflexivity.
Defined.

(** ** What the configuration reader reads *)

Lemma concatLines_length (contents : list string) :
  String.length (concatLines contents)
  = list_sum (map (fun src => String.length src + 1) contents).
Proof.
  induction contents as [|src contents IH]; [reflexivity|].
  cbn [concatLines map list_sum]. rewrite !length_append, IH.
  simpl. lia.
Qed.

(** X20.  [getAllResourcesFromTfFiles] asks for the listing once and
    then reads every listed file once, in listing order, readable or not,
    and nothing else.  Every file it could read adds its length and one to
    the length of the text, so the text is empty exactly when no listed
    file could be read: a readable empty file still leaves its line
    feed. *)
Theorem getAllResourcesFromTfFiles_reads (w : World) (dir : string) :
  trace (getAllResourcesFromTfFiles w dir)
  = EvGlob (joinPath w dir "*.tf") :: map EvReadFile (discoveredFiles w dir)
  /\ exists content err,
       result (getAllResourcesFromTfFiles w dir) = Some (content, err)
       /\ String.length content
          = list_sum (map (fun src => String.length src + 1)
                          (readableContents w (discoveredFiles w dir)))
       /\ (content = "" <-> readableContents w (discoveredFiles w dir) = []).
Proof.
  rewrite getAllResourcesFromTfFiles_run. unfold discoveredFiles.
  destruct (globResult w (joinPath w dir "*.tf")) as [files|e].
  - split; [reflexivity|]. do 2 eexists. split; [reflexivity|].
    split; [apply concatLines_length|].
    destruct (readableContents w files) as [|src contents].
    + split; reflexivity.
    + split; [|discriminate]. cbn [concatLines]. intros H.
      apply (f_equal String.length) in H.
      rewrite !length_append in H. simpl in H. lia.
  - split; [reflexivity|]. do 2 eexists. split; [reflexivity|].
    split; [reflexivity|]. split; reflexivity.
Qed.

Lemma cycle_only_reads_witness :
  cwdResult Sample.fine = Ok "/work"
  /\ filter (fun e => isWrite e || isFatal e)
       (trace (getLLMSuggestions Sample.fine (Sample.config "proj/"))) = []
  /\ last (trace (getLLMSuggestions Sample.fine (Sample.config "proj/")))
     = Some (EvPrint
               (nl +:+ "MISSING" +:+ nl +:+ "PRACTICES" +:+ nl +:+ "FEATURES")).
Proof.
  split; [reflexivity|].
  destruct (cycle_only_reads Sample.fine (Sample.config "proj/") "/work"
              eq_refl) as [Hquiet Hlast].
  split; [exact Hquiet|]. rewrite Hlast. vm_compute. reflexivity.
Defined.
